(** * img2vid: the encoder driver (cli.py) and the bounce duplicator
      (utils/bounce.py), embedded as Rocq functions.

    File names and texts are [string]s (byte strings, UTF-8 encoded), Python
    integers are [Z] or [nat], the current directory is an association list
    in the order the operating system enumerates it, and [sys.exit] and
    uncaught exceptions are values of an outcome type. *)

From Stdlib Require Import ZArith Ascii String DecimalString DecimalNat.
From Stdlib Require Import QArith Sorted Permutation Lia.
From stdpp Require Import base list strings gmap.

(** ** Python built-ins and standard-library calls the tools rely on *)

Module Py.

(** [s.rfind(c)] for a one-character [c]: index of the last occurrence,
    [-1] when there is none. *)
Fixpoint rfind (c : ascii) (s : string) : Z :=
  match s with
  | EmptyString => (-1)%Z
  | String a s' =>
      let r := rfind c s' in
      if (0 <=? r)%Z then (r + 1)%Z
      else if Ascii.eqb a c then 0%Z else (-1)%Z
  end.

(** [s[:i]] and [s[i:]] for an index [0 <= i]. *)
Definition upto (i : Z) (s : string) : string :=
  substring 0 (Z.to_nat i) s.
Definition from (i : Z) (s : string) : string :=
  substring (Z.to_nat i) (String.length s - Z.to_nat i) s.

(** [s.startswith(p)]. *)
Definition startswith (p s : string) : bool := String.prefix p s.

(** [s.lstrip(".")]. *)
Fixpoint lstrip_dot (s : string) : string :=
  match s with
  | String "." s' => lstrip_dot s'
  | _ => s
  end.

(** [s.replace(c, new)] for a one-character pattern [c]. *)
Fixpoint replace_char (c : ascii) (new : string) (s : string) : string :=
  match s with
  | EmptyString => EmptyString
  | String a s' =>
      if Ascii.eqb a c then new +:+ replace_char c new s'
      else String a (replace_char c new s')
  end.

(** ["".join(lines)]. *)
Definition join_lines (lines : list string) : string := String.concat "" lines.

(** [f"{i:03d}"]: decimal, left-padded with zeros to width 3. *)
Definition zfill (w : nat) (s : string) : string :=
  String.concat "" (replicate (w - String.length s) "0") +:+ s.
Definition format_03d (i : nat) : string :=
  zfill 3 (NilEmpty.string_of_uint (Nat.to_uint i)).

(** [str(z)] for an [int]. *)
Definition str_int (z : Z) : string := NilEmpty.string_of_int (Z.to_int z).

(** [os.path.splitext] (posixpath: [sep = "/"], no [altsep]): split at the
    last dot of the last component, unless that component consists of
    leading dots only up to there. *)
Definition splitext (p : string) : string * string :=
  let sepIndex := rfind "/" p in
  let dotIndex := rfind "." p in
  if (sepIndex <? dotIndex)%Z
     && existsb (fun c => negb (Ascii.eqb c "."))
          (list_ascii_of_string
             (from (sepIndex + 1) (upto dotIndex p)))
  then (upto dotIndex p, from dotIndex p)
  else (p, EmptyString).

(** A [pathlib.Path], as the list of its components. *)
Definition Path : Type := list string.

(** [p.name]: the final component. *)
Definition name (p : Path) : string := List.last p EmptyString.

(** [str(p)]. *)
Definition str_path (p : Path) : string := String.concat "/" p.

(** [p.suffix]: from the last dot of the name, when that dot is neither
    the first nor the last character. *)
Definition suffix (p : Path) : string :=
  let nm := name p in
  let i := rfind "." nm in
  if (0 <? i)%Z && (i <? Z.of_nat (String.length nm) - 1)%Z
  then from i nm else EmptyString.

(** [l[i]] with a Python index: negative indices count from the end,
    [None] stands for [IndexError]. *)
Definition index {A} (l : list A) (i : Z) : option A :=
  if (0 <=? i)%Z then l !! Z.to_nat i
  else if (- Z.of_nat (length l) <=? i)%Z
       then l !! Z.to_nat (Z.of_nat (length l) + i)
       else None.

(** A slice bound [i] of a sequence of length [n], as Python normalises
    it: add [n] when negative, then clamp to [0..n]. *)
Definition bound (n : nat) (i : Z) : nat :=
  if (i <? 0)%Z then Z.to_nat (Z.of_nat n + i)
  else Nat.min (Z.to_nat i) n.

(** [l[lo:hi]], [l[:hi]] and [l[lo:]]. *)
Definition slice {A} (l : list A) (lo hi : Z) : list A :=
  let a := bound (length l) lo in
  let b := bound (length l) hi in
  take (b - a) (drop a l).
Definition slice_to {A} (l : list A) (hi : Z) : list A :=
  take (bound (length l) hi) l.
Definition slice_from {A} (l : list A) (lo : Z) : list A :=
  drop (bound (length l) lo) l.

(** [list(range(start, stop, -1))]. *)
Definition range_down (start stop : Z) : list Z :=
  map (fun j => (start - Z.of_nat j)%Z) (seq 0 (Z.to_nat (start - stop))).

(** [l.index(x)]: position of the first element equal to [x]. *)
Fixpoint list_index (x : string) (l : list string) : option nat :=
  match l with
  | [] => None
  | y :: l' =>
      if String.eqb y x then Some 0 else S <$> list_index x l'
  end.

(** [l.sort(key=key)]: a stable sort by [<] on the keys; strings compare
    by code point, which on UTF-8 bytes is the byte order. *)
Section Sort.
Context {A : Type} (key : A -> string).

Fixpoint insert_by (x : A) (l : list A) : list A :=
  match l with
  | [] => [x]
  | y :: l' =>
      if String.ltb (key y) (key x) then y :: insert_by x l'
      else x :: y :: l'
  end.

Definition sort_by (l : list A) : list A := foldr insert_by [] l.
End Sort.

End Py.

(** ** What the host supplies

    Unicode case mapping, binary floating point and path resolution are
    not computed here: every definition and theorem below is stated for an
    arbitrary host. *)

Class Host := {
  (** [str.lower] and [str.casefold] *)
  lower : string -> string;
  casefold : string -> string;
  (** Python [float]s, [str(x)] and [1.0 / x] ([None]: ZeroDivisionError) *)
  float : Type;
  str_float : float -> string;
  one_over : float -> option float;
  (** [p.resolve().as_posix()] *)
  resolve_as_posix : Py.Path -> string
}.

(** ** The file system: a directory is the list of its entries, in the
    order [os.listdir] and [Path.glob] enumerate them. *)

#[warnings="-register-all"]
Inductive node : Type :=
| File (data : list Byte.byte)
| Dir (children : list (string * node)).

Definition directory : Type := list (string * node).

Fixpoint dir_lookup (nm : string) (d : directory) : option node :=
  match d with
  | [] => None
  | (k, v) :: d' => if String.eqb k nm then Some v else dir_lookup nm d'
  end.

(** Write entry [nm]: in place when it exists, else as a new last entry. *)
Fixpoint upsert (nm : string) (v : node) (d : directory) : directory :=
  match d with
  | [] => [(nm, v)]
  | (k, w) :: d' =>
      if String.eqb k nm then (k, v) :: d' else (k, w) :: upsert nm v d'
  end.

(** [os.listdir("."),] [os.path.isfile] and [os.path.exists] on a name of
    the current directory. *)
Definition listdir (d : directory) : list string := d.*1.
Definition isfile (d : directory) (nm : string) : bool :=
  match dir_lookup nm d with Some (File _) => true | _ => false end.
Definition path_exists (d : directory) (nm : string) : bool :=
  match dir_lookup nm d with Some _ => true | None => false end.

(** The node a relative path leads to, and [p.is_file()]. *)
Fixpoint walk (d : directory) (p : Py.Path) : option node :=
  match p with
  | [] => None
  | [x] => dir_lookup x d
  | x :: p' =>
      match dir_lookup x d with
      | Some (Dir d') => walk d' p'
      | _ => None
      end
  end.
Definition is_file (d : directory) (p : Py.Path) : bool :=
  match walk d p with Some (File _) => true | _ => false end.

(** [folder.glob("*")]: the direct children; [folder.glob("**/*")]: the
    children of the folder, then those of every directory below it. *)
Definition glob_star (pre : Py.Path) (d : directory) : list Py.Path :=
  map (fun c => pre ++ [c.1]) d.

Fixpoint glob_under (pre : Py.Path) (n : node) : list Py.Path :=
  match n with
  | File _ => []
  | Dir d =>
      glob_star pre d
      ++ flat_map (fun '(k, v) => glob_under (pre ++ [k]) v) d
  end.

Definition glob (recursive : bool) (d : directory) : list Py.Path :=
  if recursive then glob_under [] (Dir d) else glob_star [] d.

(** ** utils/bounce.py *)

Module Bounce.

Definition IMAGE_EXTS : gset string :=
  list_to_set [".png"; ".jpg"; ".jpeg"; ".bmp"; ".webp"; ".tif"; ".tiff"].

(** The parsed command line ([argparse.Namespace]). *)
Record Namespace := {
  arg_start : option Z;
  arg_end : option Z;
  arg_from_name : option string;
  arg_to_name : option string;
  arg_exts : option (list string);
  arg_dry_run : bool
}.

(** The ways a run ends early: the five [sys.exit] messages of the tool,
    and the exceptions of the library calls it makes. *)
Inductive error :=
| NameNotFound (nm : string)   (* index_from_name: file not found *)
| NamesTogether                (* --from-name and --to-name go together *)
| IndexTogether                (* --start/--end go together *)
| InvalidRange                 (* index/file range is not valid *)
| NoImagesFound                (* no image file in the current folder *)
| IndexError
| FileNotFoundError (nm : string)
| IsADirectoryError (nm : string)
| SameFileError (nm : string)
| OSError (nm : string).

(** The lines the tool prints. *)
Inductive message :=
| NothingToDuplicate                  (* no frame to duplicate (start==end) *)
| InfoTotal (n : nat)                 (* [len(files)] images in total *)
| InfoRange (s e : Z)                 (* range: [s0+1] ~ [e0+1] *)
| InfoEndFile (f : string)            (* end file *)
| InfoPlanned (n : nat)               (* [len(src_indices)] files to create *)
| DryLine (src dst : string)          (* [DRY] src -> dst *)
| CopyLine (src dst : string)         (* src -> dst *)
| PreviewHeader
| PreviewLine (window : list string). (* " ... " + ", ".join(window) + " ..." *)

Inductive outcome (A : Type) :=
| Done (a : A)
| Exit (e : error)
| OutOfFuel.
Arguments Done {A} a.
Arguments Exit {A} e.
Arguments OutOfFuel {A}.

#[export] Instance outcome_ret : MRet outcome := fun A a => Done a.
#[export] Instance outcome_bind : MBind outcome := fun A B f m =>
  match m with
  | Done a => f a
  | Exit e => Exit e
  | OutOfFuel => OutOfFuel
  end.

(** What a run can see and change: the current directory and the lines
    printed so far. *)
Record world := { cwd : directory; stdout : list message }.

Definition M (A : Type) : Type := world -> outcome A * world.

#[export] Instance M_ret : MRet M := fun A a w => (Done a, w).
#[export] Instance M_bind : MBind M := fun A B f m w =>
  match m w with
  | (Done a, w') => f a w'
  | (Exit e, w') => (Exit e, w')
  | (OutOfFuel, w') => (OutOfFuel, w')
  end.

Definition lift {A} (o : outcome A) : M A := fun w => (o, w).
Definition sys_exit {A} (e : error) : M A := lift (Exit e).
Definition print (m : message) : M unit := fun w =>
  (Done tt, {| cwd := cwd w; stdout := stdout w ++ [m] |}).
Definition get_cwd : M directory := fun w => (Done (cwd w), w).

(** [shutil.copy2(src, dst)] on names of the current directory: into
    [dst] when it is a directory, else onto [dst]. *)
Definition copy2 (src dst : string) : M unit := fun w =>
  match dir_lookup src (cwd w) with
  | None => (Exit (FileNotFoundError src), w)
  | Some (Dir _) => (Exit (IsADirectoryError src), w)
  | Some (File data) =>
      if String.eqb src dst then (Exit (SameFileError src), w)
      else
        let d' :=
          match dir_lookup dst (cwd w) with
          | Some (Dir inner) =>
              upsert dst (Dir (upsert src (File data) inner)) (cwd w)
          | _ => upsert dst (File data) (cwd w)
          end in
        (Done tt, {| cwd := d'; stdout := stdout w |})
  end.

Section WithHost.
Context `{Host}.

Definition accepted (ext_filter : option (gset string)) (ext : string) : bool :=
  match ext_filter with
  | Some X =>
      if bool_decide (X = ∅) then bool_decide (ext ∈ IMAGE_EXTS)
      else bool_decide (ext ∈ X)
  | None => bool_decide (ext ∈ IMAGE_EXTS)
  end.

Definition list_images (ext_filter : option (gset string)) (d : directory)
  : list string :=
  let files :=
    List.filter
      (fun f => isfile d f && accepted ext_filter (lower (Py.splitext f).2))
      (listdir d) in
  Py.sort_by casefold files.

Definition index_from_name (files : list string) (nm : string) : outcome Z :=
  match Py.list_index nm files with
  | Some i => Done (Z.of_nat i)
  | None => Exit (NameNotFound nm)
  end.

Definition candidate (end_stem end_ext : string) (i : nat) : string :=
  end_stem +:+ "_" +:+ Py.format_03d i +:+ end_ext.

(** One round of the [while True] loop per unit of fuel. *)
Fixpoint find_free_block_from (fuel : nat) (d : directory)
    (end_stem end_ext : string) (count n : nat) : outcome nat :=
  match fuel with
  | O => OutOfFuel
  | S fuel' =>
      let ok :=
        forallb (fun i => negb (path_exists d (candidate end_stem end_ext i)))
                (seq n count) in
      if ok then Done n
      else find_free_block_from fuel' d end_stem end_ext count (S n)
  end.

Definition find_free_block (fuel : nat) (end_stem end_ext : string)
    (count : nat) : M nat := fun w =>
  (find_free_block_from fuel (cwd w) end_stem end_ext count 1, w).

Definition truthy (o : option string) : bool :=
  match o with
  | Some s => negb (String.eqb s EmptyString)
  | None => false
  end.

Definition resolve_range (files : list string) (args : Namespace)
  : outcome (Z * Z) :=
  let n := Z.of_nat (length files) in
  '(s0, e0) ←
    (if bool_decide (is_Some (arg_from_name args))
        || bool_decide (is_Some (arg_to_name args)) then
       if negb (truthy (arg_from_name args) && truthy (arg_to_name args))
       then Exit NamesTogether
       else
         s0 ← index_from_name files (default EmptyString (arg_from_name args));
         e0 ← index_from_name files (default EmptyString (arg_to_name args));
         Done (s0, e0)
     else if bool_decide (is_Some (arg_start args))
             || bool_decide (is_Some (arg_end args)) then
       match arg_start args, arg_end args with
       | Some s, Some e => Done (s - 1, e - 1)%Z
       | _, _ => Exit IndexTogether
       end
     else Done (0, n - 1)%Z);
  if (s0 <? 0)%Z || (n <=? e0)%Z || (e0 <? s0)%Z
  then Exit InvalidRange
  else Done (s0, e0).

Definition from_index {A} (o : option A) : outcome A :=
  match o with
  | Some a => Done a
  | None => Exit IndexError
  end.

(** The copy loop of [main]:
    [for k, src_i in enumerate(src_indices, start=start_block)]. *)
Fixpoint copy_frames (files : list string) (end_stem end_ext : string)
    (dry_run : bool) (k : nat) (src_indices : list Z)
    (created : list string) : M (list string) :=
  match src_indices with
  | [] => mret created
  | src_i :: rest =>
      src ← lift (from_index (Py.index files src_i));
      let dst := candidate end_stem end_ext k in
      (if dry_run then print (DryLine src dst)
       else copy2 src dst;; print (CopyLine src dst));;
      copy_frames files end_stem end_ext dry_run (S k) rest (created ++ [dst])
  end.

(** The window of the preview that [main] prints last. *)
Definition preview_window (files : list string) (e0 : Z)
    (created : list string) : list string :=
  let preview :=
    Py.slice_to files (e0 + 1) ++ created ++ Py.slice_from files (e0 + 1) in
  let window_start := Z.max 0 (e0 - 2) in
  let window_end :=
    Z.min (Z.of_nat (length preview)) (e0 + 3 + Z.of_nat (length created)) in
  Py.slice preview window_start window_end.

Definition normalize_ext (e : string) : string :=
  if Py.startswith "." e then lower e else "." +:+ lower e.

(** Lines 97-100 of [main]: the extension filter, when [--exts] names
    at least one extension. *)
Definition ext_filter_of (args : Namespace) : option (gset string) :=
  match arg_exts args with
  | Some (e :: es) => Some (list_to_set (map normalize_ext (e :: es)))
  | _ => None
  end.

Definition main (fuel : nat) (args : Namespace) : M unit :=
  let ext_filter := ext_filter_of args in
  d ← get_cwd;
  let files := list_images ext_filter d in
  if bool_decide (files = []) then sys_exit NoImagesFound
  else
    '(s0, e0) ← lift (resolve_range files args);
    let src_indices := Py.range_down (e0 - 1) (s0 - 1) in
    if bool_decide (src_indices = []) then print NothingToDuplicate
    else
      end_file ← lift (from_index (Py.index files e0));
      let '(end_stem, end_ext) := Py.splitext end_file in
      start_block ← find_free_block fuel end_stem end_ext (length src_indices);
      print (InfoTotal (length files));;
      print (InfoRange (s0 + 1) (e0 + 1));;
      print (InfoEndFile end_file);;
      print (InfoPlanned (length src_indices));;
      created ← copy_frames files end_stem end_ext (arg_dry_run args)
                  start_block src_indices [];
      print PreviewHeader;;
      print (PreviewLine (preview_window files e0 created)).

End WithHost.
End Bounce.

(** ** utils/bounce.py on a system that can refuse a copy

    [Bounce.copy2] makes every copy of a regular file under another
    name.  The operating system can refuse one: the name is too long, no
    space is left, the directory is read-only.  Here [shutil.copy2] asks
    the system first; [list_images], [resolve_range], [find_free_block]
    and [preview_window] are those of [Bounce]. *)

Module BounceOS.
Import Bounce.

(** [copy_fault d src dst]: the answer of the system to a copy of [src]
    to [dst] in the directory [d].  [None]: the copy is made.  Otherwise
    [shutil.copy2] raises OSError and leaves nothing under the
    destination ([Some None]) or what it wrote so far ([Some (Some b)]:
    the bytes [b]). *)
Class CopyFaults := {
  copy_fault : directory -> string -> string -> option (option (list Byte.byte))
}.

Section WithHost.
Context `{Host} `{CopyFaults}.

Definition copy2 (src dst : string) : M unit := fun w =>
  match dir_lookup src (cwd w) with
  | None => (Exit (FileNotFoundError src), w)
  | Some (Dir _) => (Exit (IsADirectoryError src), w)
  | Some (File data) =>
      if String.eqb src dst then (Exit (SameFileError src), w)
      else
        let put (b : list Byte.byte) :=
          match dir_lookup dst (cwd w) with
          | Some (Dir inner) =>
              upsert dst (Dir (upsert src (File b) inner)) (cwd w)
          | _ => upsert dst (File b) (cwd w)
          end in
        match copy_fault (cwd w) src dst with
        | None => (Done tt, {| cwd := put data; stdout := stdout w |})
        | Some None => (Exit (OSError dst), w)
        | Some (Some b) =>
            (Exit (OSError dst), {| cwd := put b; stdout := stdout w |})
        end
  end.

(** The copy loop of [main]:
    [for k, src_i in enumerate(src_indices, start=start_block)]. *)
Fixpoint copy_frames (files : list string) (end_stem end_ext : string)
    (dry_run : bool) (k : nat) (src_indices : list Z)
    (created : list string) : M (list string) :=
  match src_indices with
  | [] => mret created
  | src_i :: rest =>
      src ← lift (from_index (Py.index files src_i));
      let dst := candidate end_stem end_ext k in
      (if dry_run then print (DryLine src dst)
       else copy2 src dst;; print (CopyLine src dst));;
      copy_frames files end_stem end_ext dry_run (S k) rest (created ++ [dst])
  end.

Definition main (fuel : nat) (args : Namespace) : M unit :=
  let ext_filter := ext_filter_of args in
  d ← get_cwd;
  let files := list_images ext_filter d in
  if bool_decide (files = []) then sys_exit NoImagesFound
  else
    '(s0, e0) ← lift (resolve_range files args);
    let src_indices := Py.range_down (e0 - 1) (s0 - 1) in
    if bool_decide (src_indices = []) then print NothingToDuplicate
    else
      end_file ← lift (from_index (Py.index files e0));
      let '(end_stem, end_ext) := Py.splitext end_file in
      start_block ← find_free_block fuel end_stem end_ext (length src_indices);
      print (InfoTotal (length files));;
      print (InfoRange (s0 + 1) (e0 + 1));;
      print (InfoEndFile end_file);;
      print (InfoPlanned (length src_indices));;
      created ← copy_frames files end_stem end_ext (arg_dry_run args)
                  start_block src_indices [];
      print PreviewHeader;;
      print (PreviewLine (preview_window files e0 created)).

End WithHost.
End BounceOS.



(** A system that refuses no copy. *)
Definition no_faults : BounceOS.CopyFaults :=
  {| BounceOS.copy_fault := fun _ _ _ => None |}.

(** ** cli.py *)

Module Cli.

Definition DEFAULT_EXTS : list string :=
  ["jpg"; "jpeg"; "png"; "webp"; "bmp"; "tif"; "tiff"].

Definition nl : string := String "010"%char EmptyString.

(** The exceptions of [build_concat_file]: of [1.0 / fps], of [imgs[-1]]
    and of [write_text]. *)
Inductive write_error := UnicodeEncodeError | OSError.
Inductive exn := ZeroDivisionError | IndexError | WriteError (e : write_error).

(** [path.write_text(text, encoding="utf-8")] as the system answers it:
    [None] when the file now holds [text], else the exception raised. *)
Class Disk := { write_text : string -> string -> option write_error }.

Section WithHost.
Context `{Host} `{Disk}.

Definition collect_images (folder : directory) (recursive : bool)
    (exts : list string) : list Py.Path :=
  let exts_lower : gset string :=
    list_to_set (map (fun e => Py.lstrip_dot (lower e)) exts) in
  let files :=
    List.filter
      (fun p => is_file folder p
                && bool_decide (Py.lstrip_dot (lower (Py.suffix p)) ∈ exts_lower))
      (glob recursive folder) in
  Py.sort_by (fun p => lower (Py.name p)) files.

Definition _escape_single_quotes (s : string) : string :=
  Py.replace_char "'" "'\''" s.

Definition file_line (p : Py.Path) : string :=
  "file '" +:+ _escape_single_quotes (resolve_as_posix p) +:+ "'" +:+ nl.

(** The loop of [build_concat_file], [i] counting as [enumerate] does. *)
Fixpoint concat_loop (n : nat) (fps : float) (i : nat) (imgs : list Py.Path)
    (lines : list string) : exn + list string :=
  match imgs with
  | [] => inr lines
  | p :: rest =>
      let lines := lines ++ [file_line p] in
      if (Z.of_nat i <? Z.of_nat n - 1)%Z then
        match one_over fps with
        | None => inl ZeroDivisionError
        | Some d =>
            concat_loop n fps (S i) rest
              (lines ++ ["duration " +:+ str_float d +:+ nl])
        end
      else concat_loop n fps (S i) rest lines
  end.

(** Lines 49-58 of [build_concat_file]: the text of the manifest. *)
Definition manifest_text (imgs : list Py.Path) (fps : float)
  : exn + string :=
  match concat_loop (length imgs) fps 0 imgs [] with
  | inl e => inl e
  | inr lines =>
      match Py.index imgs (-1) with
      | None => inl IndexError
      | Some last => inr (Py.join_lines (lines ++ [file_line last]))
      end
  end.

(** [build_concat_file]: the text, then line 61, which writes it to
    [concat_path]; [inr text] says that the file now holds [text]. *)
Definition build_concat_file (imgs : list Py.Path) (fps : float)
    (concat_path : string) : exn + string :=
  match manifest_text imgs fps with
  | inl e => inl e
  | inr text =>
      match write_text concat_path text with
      | Some e => inl (WriteError e)
      | None => inr text
      end
  end.

(** The options of the encoder that the command line depends on. *)
Record Namespace := {
  arg_output : Py.Path;
  arg_fps : float;
  arg_crf : option float;
  arg_preset : string;
  arg_pix_fmt : option string;
  arg_size : option (Z * Z);
  arg_codec : string;
  arg_lossless : bool
}.

(** [crf] is the caller's [float] or one of the [int] defaults. *)
Inductive number := Int (z : Z) | Float (x : float).

Definition str_number (c : number) : string :=
  match c with
  | Int z => Py.str_int z
  | Float x => str_float x
  end.

(** Lines 96-107 of [main]: the quality and pixel format in effect. *)
Definition quality_defaults (args : Namespace) : number * string :=
  let codec := arg_codec args in
  let crf := Float <$> arg_crf args in
  let pix_fmt := arg_pix_fmt args in
  let '(crf, pix_fmt) :=
    if arg_lossless args && Py.startswith "libx264" codec
       && match crf with None => true | Some _ => false end
    then (Some (Int 0),
          match pix_fmt with None => Some "yuv444p" | Some _ => pix_fmt end)
    else (crf, pix_fmt) in
  let crf :=
    match crf with
    | None => if Py.startswith "libx265" codec then Int 22 else Int 16
    | Some c => c
    end in
  let pix_fmt := default "yuv420p" pix_fmt in
  (crf, pix_fmt).

(** Lines 112-138 of [main]: the command line of the encoder. *)
Definition command (args : Namespace) (ffmpeg concat_path : string)
  : list string :=
  let codec := arg_codec args in
  let '(crf, pix_fmt) := quality_defaults args in
  let filters :=
    match arg_size args with
    | Some (w, h) => ["scale=" +:+ Py.str_int w +:+ ":-2:flags=lanczos"]
    | None => []
    end ++ ["scale=ceil(iw/2)*2:ceil(ih/2)*2"] in
  let vf := String.concat "," filters in
  let cmd := [ffmpeg; "-y"; "-f"; "concat"; "-safe"; "0"; "-i"; concat_path;
              "-r"; str_float (arg_fps args)] in
  let cmd := if negb (String.eqb vf EmptyString) then cmd ++ ["-vf"; vf] else cmd in
  let cmd :=
    if String.eqb codec "prores_ks"
    then cmd ++ ["-c:v"; "prores_ks"; "-profile:v"; "3"; "-pix_fmt"; "yuv422p10le"]
    else cmd ++ ["-c:v"; codec; "-crf"; str_number crf; "-preset";
                 arg_preset args; "-pix_fmt"; pix_fmt] in
  let cmd :=
    if Py.startswith "libx265" codec
       && String.eqb (lower (Py.suffix (arg_output args))) ".mp4"
    then cmd ++ ["-tag:v"; "hvc1"] else cmd in
  cmd ++ [Py.str_path (arg_output args)].

End WithHost.
End Cli.

(** ** Notions the statements use *)

(** All [count] names of the block that starts at [n] are free in [d]. *)
Definition block_free (d : directory) (end_stem end_ext : string)
    (count n : nat) : Prop :=
  forall i, n <= i < n + count ->
    path_exists d (Bounce.candidate end_stem end_ext i) = false.

(** The directory without the entries called [nm]. *)
Definition dir_remove (nm : string) (d : directory) : directory :=
  List.filter (fun e => negb (String.eqb e.1 nm)) d.

(** The order of a list sorted with [key]: by the keys, as strings. *)
Definition key_le {A : Type} (key : A -> string) (a b : A) : Prop :=
  String.le (key a) (key b).

(** The bytes of the regular file [nm] of [d]. *)
Definition file_data (d : directory) (nm : string) : list Byte.byte :=
  match dir_lookup nm d with
  | Some (File b) => b
  | _ => []
  end.

(** The (source, destination) pairs of the copy loop: the sources in the
    order of [src_indices], the destinations numbered from [k]. *)
Fixpoint planned (files : list string) (end_stem end_ext : string) (k : nat)
    (src_indices : list Z) : list (string * string) :=
  match src_indices with
  | [] => []
  | i :: rest =>
      (default EmptyString (Py.index files i),
       Bounce.candidate end_stem end_ext k)
      :: planned files end_stem end_ext (S k) rest
  end.

(** The pairs of a mirror of the range [(s, e)] into the block at [n]:
    slot [n + j] takes [files[e - 1 - j]], for [j = 0 .. e - s - 1]. *)
Definition mirror_pairs (files : list string) (end_stem end_ext : string)
    (n : nat) (s e : Z) : list (string * string) :=
  map (fun j => (default EmptyString (files !! (Z.to_nat e - 1 - j)),
                 Bounce.candidate end_stem end_ext (n + j)))
      (seq 0 (Z.to_nat (e - s))).

(** The entries the copies add to the directory [d]. *)
Definition copies (d : directory) (pairs : list (string * string)) : directory :=
  map (fun p => (p.2, File (file_data d p.1))) pairs.

(** A preview window around the end frame [files[e]]: up to two entries
    before it, the end frame, the new entries, and up to [following]
    original entries after them. *)
Definition window_around (following : nat) (files : list string) (e : nat)
    (created : list string) : list string :=
  drop (e - 2) (take (S e) files) ++ created
  ++ take following (drop (S e) files).

(** ** An executable host and sample directories

    For running the tools on concrete inputs: names are ASCII, the
    current directory is the root, and a [float] is an exact rational.  A rational [n/2^k] is printed in
    decimal, as Python prints the float of that value when its expansion
    is short ([16.0], [0.0625]); the frame rates of the examples and their
    inverses are of this form.  Other rationals are no floats and are
    printed as fractions. *)

Definition ascii_lower_char (c : ascii) : ascii :=
  let n := nat_of_ascii c in
  if (65 <=? n)%nat && (n <=? 90)%nat then ascii_of_nat (n + 32) else c.

Fixpoint ascii_lower (s : string) : string :=
  match s with
  | EmptyString => EmptyString
  | String c s' => String (ascii_lower_char c) (ascii_lower s')
  end.

(** [k] when [p] is [2^k]. *)
Fixpoint pow2_exp (p : positive) : option nat :=
  match p with
  | xH => Some 0
  | xO p' => S <$> pow2_exp p'
  | xI _ => None
  end.

Fixpoint rstrip_zeros (s : string) : string :=
  match s with
  | EmptyString => EmptyString
  | String c s' =>
      match rstrip_zeros s' with
      | EmptyString =>
          if Ascii.eqb c "0" then EmptyString else String c EmptyString
      | r => String c r
      end
  end.

(** The decimal expansion of [n/2^k], which is [n*5^k/10^k]: at least one
    digit on each side of the point, no trailing zeros after it. *)
Definition str_dyadic (n : Z) (k : nat) : string :=
  let digits :=
    NilEmpty.string_of_uint (N.to_uint (Z.to_N (Z.abs n * 5 ^ Z.of_nat k))) in
  let padded := Py.zfill (S k) digits in
  let cut := String.length padded - k in
  let frac := rstrip_zeros (substring cut k padded) in
  (if (n <? 0)%Z then "-" else EmptyString)
  +:+ substring 0 cut padded +:+ "."
  +:+ (if String.eqb frac EmptyString then "0" else frac).

Definition str_rational (q : Q) : string :=
  let r := Qred q in
  match pow2_exp (Qden r) with
  | Some k => str_dyadic (Qnum r) k
  | None => Py.str_int (Qnum r) +:+ "/" +:+ Py.str_int (Z.pos (Qden r))
  end.

(** The names from the root that a path stands for when the current
    directory is the root. *)
Definition from_root (p : Py.Path) : list string :=
  foldl (fun loc c =>
           if String.eqb c EmptyString || String.eqb c "." then loc
           else if String.eqb c ".." then removelast loc
           else loc ++ [c])
    [] p.

Definition ascii_host : Host := {|
  lower := ascii_lower;
  casefold := ascii_lower;
  float := Q;
  str_float := str_rational;
  one_over := fun q => if Qeq_bool q 0 then None else Some (Qred (Qinv q));
  resolve_as_posix := fun p => "/" +:+ String.concat "/" (from_root p)
|}.

(** A disk on which every write succeeds. *)
Definition sample_disk : Cli.Disk := {| Cli.write_text := fun _ _ => None |}.

Definition byte_file (b : Byte.byte) : node := File [b].

(** [a.png .. d.png], and [a.png .. f.png]. *)
Definition four_images : directory :=
  [("a.png", byte_file Byte.x0a); ("b.png", byte_file Byte.x0b);
   ("c.png", byte_file Byte.x0c); ("d.png", byte_file Byte.x0d)].
Definition six_images : directory :=
  four_images ++ [("e.png", byte_file Byte.x0e); ("f.png", byte_file Byte.x0f)].

(** One frame and copies of it in the blocks [1..3] and [7..9]. *)
Definition two_blocks : directory :=
  [("x.png", byte_file Byte.x00);
   ("x_001.png", byte_file Byte.x01); ("x_002.png", byte_file Byte.x02);
   ("x_003.png", byte_file Byte.x03); ("x_007.png", byte_file Byte.x07);
   ("x_008.png", byte_file Byte.x08); ("x_009.png", byte_file Byte.x09)].

Definition no_bounds : Bounce.Namespace := {|
  Bounce.arg_start := None; Bounce.arg_end := None;
  Bounce.arg_from_name := None; Bounce.arg_to_name := None;
  Bounce.arg_exts := None; Bounce.arg_dry_run := false |}.

Definition by_index (s e : Z) : Bounce.Namespace := {|
  Bounce.arg_start := Some s; Bounce.arg_end := Some e;
  Bounce.arg_from_name := None; Bounce.arg_to_name := None;
  Bounce.arg_exts := None; Bounce.arg_dry_run := false |}.

Definition fresh (d : directory) : Bounce.world :=
  {| Bounce.cwd := d; Bounce.stdout := [] |}.

(** Index bounds 2..2 together with the names of the first two images. *)
Definition both_forms : Bounce.Namespace := {|
  Bounce.arg_start := Some 2%Z; Bounce.arg_end := Some 2%Z;
  Bounce.arg_from_name := Some "a.png"; Bounce.arg_to_name := Some "b.png";
  Bounce.arg_exts := None; Bounce.arg_dry_run := false |}.

(** The same command line with [--start] and [--end] left out. *)
Definition without_index (args : Bounce.Namespace) : Bounce.Namespace := {|
  Bounce.arg_start := None; Bounce.arg_end := None;
  Bounce.arg_from_name := Bounce.arg_from_name args;
  Bounce.arg_to_name := Bounce.arg_to_name args;
  Bounce.arg_exts := Bounce.arg_exts args;
  Bounce.arg_dry_run := Bounce.arg_dry_run args |}.

(** The command line of the encoder in parts: the input and filter
    options, the codec options, and whether the [hvc1] tag applies. *)
Section CommandParts.
Context `{Host}.

Definition input_options (args : Cli.Namespace) (ffmpeg concat_path : string)
  : list string :=
  [ffmpeg; "-y"; "-f"; "concat"; "-safe"; "0"; "-i"; concat_path;
   "-r"; str_float (Cli.arg_fps args); "-vf";
   String.concat ","
     (match Cli.arg_size args with
      | Some (w, h) => ["scale=" +:+ Py.str_int w +:+ ":-2:flags=lanczos"]
      | None => []
      end ++ ["scale=ceil(iw/2)*2:ceil(ih/2)*2"])].

Definition codec_options (args : Cli.Namespace) : list string :=
  if String.eqb (Cli.arg_codec args) "prores_ks"
  then ["-c:v"; "prores_ks"; "-profile:v"; "3"; "-pix_fmt"; "yuv422p10le"]
  else ["-c:v"; Cli.arg_codec args;
        "-crf"; Cli.str_number (Cli.quality_defaults args).1;
        "-preset"; Cli.arg_preset args;
        "-pix_fmt"; (Cli.quality_defaults args).2].

Definition tagged (args : Cli.Namespace) : bool :=
  Py.startswith "libx265" (Cli.arg_codec args)
  && String.eqb (lower (Py.suffix (Cli.arg_output args))) ".mp4".

End CommandParts.

(** The [file] line of the manifest for the path [p], without its line
    end. *)
Definition file_entry `{Host} (p : Py.Path) : string :=
  "file '" +:+ Cli._escape_single_quotes (resolve_as_posix p) +:+ "'".

(** The [duration] line of the manifest for the frame time [d], and the
    UTF-8 byte-order mark (EF BB BF). *)
Definition duration_line `{Host} (d : float) : string :=
  "duration " +:+ str_float d +:+ Cli.nl.
Definition bom : string :=
  String "239"%char (String "187"%char (String "191"%char EmptyString)).

(** The extensions (with their dot) the bounce tool accepts: the filter
    when one is given and not empty, else [IMAGE_EXTS]. *)
Definition effective_exts (ext_filter : option (gset string)) : gset string :=
  match ext_filter with
  | Some X => if bool_decide (X = ∅) then Bounce.IMAGE_EXTS else X
  | None => Bounce.IMAGE_EXTS
  end.

(** ** Further notions: variants of a command line *)


(** A bounce command line with file-name bounds only. *)
Definition by_name (f t : string) : Bounce.Namespace := {|
  Bounce.arg_start := None; Bounce.arg_end := None;
  Bounce.arg_from_name := Some f; Bounce.arg_to_name := Some t;
  Bounce.arg_exts := None; Bounce.arg_dry_run := false |}.



(** The same encoder options with [--lossless] set to [b], and with
    [--size] set to [sz]. *)
Definition with_lossless `{Host} (b : bool) (args : Cli.Namespace)
  : Cli.Namespace := {|
  Cli.arg_output := Cli.arg_output args; Cli.arg_fps := Cli.arg_fps args;
  Cli.arg_crf := Cli.arg_crf args; Cli.arg_preset := Cli.arg_preset args;
  Cli.arg_pix_fmt := Cli.arg_pix_fmt args; Cli.arg_size := Cli.arg_size args;
  Cli.arg_codec := Cli.arg_codec args; Cli.arg_lossless := b |}.

Definition with_size `{Host} (sz : option (Z * Z)) (args : Cli.Namespace)
  : Cli.Namespace := {|
  Cli.arg_output := Cli.arg_output args; Cli.arg_fps := Cli.arg_fps args;
  Cli.arg_crf := Cli.arg_crf args; Cli.arg_preset := Cli.arg_preset args;
  Cli.arg_pix_fmt := Cli.arg_pix_fmt args; Cli.arg_size := sz;
  Cli.arg_codec := Cli.arg_codec args;
  Cli.arg_lossless := Cli.arg_lossless args |}.

(** Sample encoder options: codec [libx265], [--lossless], output
    [out.mp4], 16 frames per second on the executable host. *)
Definition x265_lossless : @Cli.Namespace ascii_host :=
  @Cli.Build_Namespace ascii_host ["out.mp4"] (16 # 1)%Q None "slow" None
    None "libx265" true.

(** ** cli.py, the rest: [find_ffmpeg], [parse_size] and [main] *)

Module Driver.

(** What the environment of a run supplies. *)
Class Env := {
  (** [str.strip] *)
  strip : string -> string;
  (** [int(s)]; [None]: ValueError *)
  int_of : string -> option Z;
  (** [shutil.which("ffmpeg")] *)
  which_ffmpeg : option string;
  (** [os.getcwd()], as the names from the root of the file system *)
  getcwd : list string;
  (** [subprocess.run(cmd)]: the exit status of the process; [None] when
      the system cannot start it (FileNotFoundError, PermissionError) *)
  run : list string -> option Z;
  (** whether [tempfile.TemporaryDirectory()] can create its directory,
      and the directory it creates *)
  mkdtemp_ok : bool;
  tempdir : string
}.

(** [s.split(c)] for a one-character separator [c]. *)
Fixpoint split_on (c : ascii) (s : string) : list string :=
  match s with
  | EmptyString => [EmptyString]
  | String a s' =>
      match split_on c s' with
      | [] => [if Ascii.eqb a c then EmptyString else String a EmptyString]
      | hd :: tl =>
          if Ascii.eqb a c then EmptyString :: hd :: tl
          else String a hd :: tl
      end
  end.

(** What a run does, in order, and how it ends. *)
Inductive event :=
| Stdout (line : string)
| Stderr (line : string)
| MakeTemp (dir : string)
| WriteText (path text : string)
| Run (cmd : list string)
| RemoveTemp (dir : string).

(** [Raised]: an exception of [build_concat_file]; [RaisedOSError]: the
    OSError of [TemporaryDirectory()] or of [subprocess.run].  The tool
    catches neither. *)
Inductive result :=
| Return (code : Z)
| SystemExit (msg : string)
| Raised (e : Cli.exn)
| RaisedOSError.

(** The truth value of an optional string: [None] and [""] are false. *)
Definition given (o : option string) : bool :=
  match o with
  | Some s => negb (String.eqb s EmptyString)
  | None => false
  end.

Definition dquote : string := String "034"%char EmptyString.

(** [" " in c] and [f'"{c}"' if " " in c else c]. *)
Definition has_space (c : string) : bool :=
  existsb (Ascii.eqb " ") (list_ascii_of_string c).
Definition quote_arg (c : string) : string :=
  if has_space c then dquote +:+ c +:+ dquote else c.

(** [str(p)] for a path that may be [Path(".")] or [Path("/")].  A path
    is absolute when its first component is the empty string, so that
    [str_path] writes it with a leading [/]. *)
Definition show_path (p : Py.Path) : string :=
  match p with
  | [] => "."
  | [EmptyString] => "/"
  | _ => Py.str_path p
  end.

(** The node at a location, given by the names from the root. *)
Definition node_at (root : directory) (loc : list string) : option node :=
  match loc with
  | [] => Some (Dir root)
  | _ => walk root loc
  end.

(** One component [c] of a path, followed from the location [loc]: only
    a directory can be left through a component; [..] leads to its
    parent, the root being its own. *)
Definition enter (root : directory) (loc : option (list string)) (c : string)
  : option (list string) :=
  match loc with
  | None => None
  | Some l =>
      match node_at root l with
      | Some (Dir _) =>
          if String.eqb c EmptyString || String.eqb c "." then Some l
          else if String.eqb c ".." then Some (removelast l)
          else Some (l ++ [c])
      | _ => None
      end
  end.

(** The location a path leads to, from the root when it is absolute,
    else from the current directory [cwd]. *)
Definition locate (root : directory) (cwd : list string) (p : Py.Path)
  : option (list string) :=
  let start :=
    match p with
    | EmptyString :: _ => []
    | _ => cwd
    end in
  foldl (enter root) (Some start) p.

Section WithHost.
Context `{Host} `{Cli.Disk} `{Env}.

(** The directory a path leads to, when it exists and is a directory
    ([folder.exists() and folder.is_dir()]). *)
Definition folder_of (root : directory) (p : Py.Path) : option directory :=
  match locate root getcwd p with
  | Some loc =>
      match node_at root loc with
      | Some (Dir d) => Some d
      | _ => None
      end
  | None => None
  end.

(** The options of [main] besides those of the encoder. *)
Record Namespace := {
  arg_input : Py.Path;
  arg_recursive : bool;
  arg_exts : string;
  arg_ffmpeg : option string;
  arg_dry_run : bool;
  arg_encode : Cli.Namespace
}.

(** [find_ffmpeg]; [inl] is the message of the [SystemExit]. *)
Definition find_ffmpeg (explicit : option string) : string + string :=
  if given explicit then inr (default EmptyString explicit)
  else
    let ff := which_ffmpeg in
    if negb (given ff)
    then inl "ERROR: ffmpeg not found on PATH. Install ffmpeg or pass --ffmpeg PATH."
    else inr (default EmptyString ff).

(** [parse_size]; [None] is the [ArgumentTypeError]. *)
Definition parse_size (s : string) : option (Z * Z) :=
  match split_on "x" (lower s) with
  | [w; h] =>
      match int_of w with
      | Some a => match int_of h with
                  | Some b => Some (a, b)
                  | None => None
                  end
      | None => None
      end
  | _ => None
  end.

(** Line 88 of [main]: the extensions of [--exts]. *)
Definition parse_exts (s : string) : list string :=
  map (fun e => Py.lstrip_dot (lower (strip e)))
    (List.filter (fun e => negb (String.eqb (strip e) EmptyString))
       (split_on "," s)).

Definition main (args : Namespace) (root : directory)
  : result * list event :=
  let folder := arg_input args in
  match folder_of root folder with
  | None =>
      (Return 2,
       [Stderr ("ERROR: Input folder does not exist: " +:+ show_path folder)])
  | Some d =>
      let exts := parse_exts (arg_exts args) in
      let imgs :=
        map (fun p => folder ++ p)
          (Cli.collect_images d (arg_recursive args) exts) in
      match imgs with
      | [] => (Return 3, [Stderr "ERROR: No images found."])
      | _ :: _ =>
          match find_ffmpeg (arg_ffmpeg args) with
          | inl msg => (SystemExit msg, [])
          | inr ffmpeg =>
              if negb mkdtemp_ok then (RaisedOSError, []) else
              let td := tempdir in
              let concat_path := td +:+ "/list.txt" in
              match Cli.build_concat_file imgs
                      (Cli.arg_fps (arg_encode args)) concat_path with
              | inl e => (Raised e, [MakeTemp td; RemoveTemp td])
              | inr text =>
                  let cmd := Cli.command (arg_encode args) ffmpeg concat_path in
                  if arg_dry_run args then
                    (Return 0,
                     [MakeTemp td; WriteText concat_path text;
                      Stdout (String.concat " " (map quote_arg cmd));
                      RemoveTemp td])
                  else
                    let found :=
                      Stdout ("Found "
                              +:+ Py.str_int (Z.of_nat (length imgs))
                              +:+ " images. Encoding to "
                              +:+ Py.str_path
                                    (Cli.arg_output (arg_encode args))
                              +:+ " ...") in
                    match run cmd with
                    | None =>
                        (RaisedOSError,
                         [MakeTemp td; WriteText concat_path text; found;
                          RemoveTemp td])
                    | Some code =>
                        if (code =? 0)%Z then
                          (Return 0,
                           [MakeTemp td; WriteText concat_path text; found;
                            Run cmd; RemoveTemp td; Stdout "Done."])
                        else
                          (Return code,
                           [MakeTemp td; WriteText concat_path text; found;
                            Run cmd; Stderr "ffmpeg failed. Command was:";
                            Stderr (String.concat " " cmd); RemoveTemp td])
                    end
              end
          end
      end
  end.

End WithHost.
End Driver.

(** An environment for running the driver: no stripping needed, decimal
    integers, [ffmpeg] on the search path, the root as the current
    directory, and an encoder that can be started when it is the one on
    the search path, fails with status 1 when asked for the codec [none]
    and succeeds otherwise. *)
Definition decimal_int (s : string) : option Z :=
  match s with
  | EmptyString => None
  | _ => (fun d => Z.of_nat (Nat.of_uint d))
           <$> NilEmpty.uint_of_string s
  end.

Definition sample_env : Driver.Env := {|
  Driver.strip := fun s => s;
  Driver.int_of := decimal_int;
  Driver.which_ffmpeg := Some "/usr/bin/ffmpeg";
  Driver.getcwd := [];
  Driver.run := fun cmd =>
    if bool_decide (head cmd = Some "/usr/bin/ffmpeg")
    then Some (if bool_decide ("none" ∈ cmd) then 1%Z else 0%Z)
    else None;
  Driver.mkdtemp_ok := true;
  Driver.tempdir := "/tmp/td"
|}.

Definition sample_options (codec : string) (dry : bool)
  : @Driver.Namespace ascii_host :=
  @Driver.Build_Namespace ascii_host [] false "png,jpg" None dry
    (@Cli.Build_Namespace ascii_host ["out.mp4"] (16 # 1)%Q None "slow" None
       None codec false).

(** The images a run of the driver finds ([None]: the input folder is
    missing), and what it has when it is ready to encode: the command
    line [cmd] and the manifest [text] for it. *)
Section Staging.
Context `{Host} `{Cli.Disk} `{Driver.Env}.

Definition images_of (args : Driver.Namespace) (root : directory)
  : option (list Py.Path) :=
  (fun d =>
     map (fun p => Driver.arg_input args ++ p)
       (Cli.collect_images d (Driver.arg_recursive args)
          (Driver.parse_exts (Driver.arg_exts args))))
  <$> Driver.folder_of root (Driver.arg_input args).

Definition manifest_path : string := Driver.tempdir +:+ "/list.txt".

Definition staged (args : Driver.Namespace) (root : directory)
    (cmd : list string) (text : string) : Prop :=
  exists imgs ffmpeg,
    images_of args root = Some imgs /\ imgs <> []
    /\ Driver.find_ffmpeg (Driver.arg_ffmpeg args) = inr ffmpeg
    /\ Driver.mkdtemp_ok = true
    /\ Cli.build_concat_file imgs (Cli.arg_fps (Driver.arg_encode args))
         manifest_path
       = inr text
    /\ cmd = Cli.command (Driver.arg_encode args) ffmpeg manifest_path.


Definition is_print (ev : Driver.event) : bool :=
  match ev with
  | Driver.Stdout _ | Driver.Stderr _ => true
  | _ => false
  end.

End Staging.

(** * Properties *)

(** ** Strings and formatted numbers *)

Lemma str_app_String (c : ascii) (a b : string) :
  String c a +:+ b = String c (a +:+ b).
Proof. reflexivity. Qed.

Lemma str_app_empty_l (b : string) : "" +:+ b = b.
Proof. reflexivity. Qed.

Lemma str_length_app (a b : string) :
  String.length (a +:+ b) = String.length a + String.length b.
Proof.
  induction a as [|c a IH]; [reflexivity |].
  rewrite str_app_String. simpl. now rewrite IH.
Qed.

Lemma str_app_inv_tail (a b e : string) : a +:+ e = b +:+ e -> a = b.
Proof.
  intros Heq.
  assert (Hlen : String.length a = String.length b).
  { apply (f_equal String.length) in Heq. rewrite !str_length_app in Heq. lia. }
  revert b Heq Hlen.
  induction a as [|c a IH]; intros [|c' b] Heq Hlen; simpl in Hlen;
    try discriminate; [reflexivity |].
  rewrite !str_app_String in Heq.
  injection Heq as -> Heq. f_equal. apply IH; [exact Heq | lia].
Qed.

Lemma str_app_empty_r (a : string) : a +:+ "" = a.
Proof.
  induction a as [|c a IH]; [reflexivity |]. now rewrite str_app_String, IH.
Qed.

Lemma str_app_assoc (a b c : string) : (a +:+ b) +:+ c = a +:+ (b +:+ c).
Proof.
  induction a as [|x a IH]; [reflexivity |]. now rewrite !str_app_String, IH.
Qed.

Lemma concat_empty_cons (x : string) (l : list string) :
  String.concat "" (x :: l) = x +:+ String.concat "" l.
Proof.
  destruct l as [|y l]; [| reflexivity].
  change (x = x +:+ ""). now rewrite str_app_empty_r.
Qed.

Lemma concat_empty_app (l1 l2 : list string) :
  String.concat "" (l1 ++ l2) = String.concat "" l1 +:+ String.concat "" l2.
Proof.
  induction l1 as [|x l1 IH]; [reflexivity |].
  rewrite <- app_comm_cons, !concat_empty_cons, IH. now rewrite str_app_assoc.
Qed.

Lemma zfill_uint (w : nat) (d : Decimal.uint) :
  Py.zfill w (NilEmpty.string_of_uint d)
  = NilEmpty.string_of_uint
      (Nat.iter (w - String.length (NilEmpty.string_of_uint d)) Decimal.D0 d).
Proof.
  unfold Py.zfill.
  generalize (w - String.length (NilEmpty.string_of_uint d)) as n.
  induction n as [|n IH]; [reflexivity |].
  change (replicate (S n) "0") with ("0" :: replicate n "0").
  rewrite concat_empty_cons, str_app_assoc, IH. reflexivity.
Qed.

Lemma of_uint_zeros (n : nat) (d : Decimal.uint) :
  Nat.of_uint (Nat.iter n Decimal.D0 d) = Nat.of_uint d.
Proof. induction n as [|n IH]; [reflexivity | exact IH]. Qed.

(** Reading a formatted number back gives the number. *)
Lemma format_03d_read (i : nat) :
  Nat.of_uint <$> NilEmpty.uint_of_string (Py.format_03d i) = Some i.
Proof.
  unfold Py.format_03d. rewrite zfill_uint, NilEmpty.usu. simpl.
  now rewrite of_uint_zeros, DecimalNat.Unsigned.of_to.
Qed.

Lemma format_03d_inj (i j : nat) : Py.format_03d i = Py.format_03d j -> i = j.
Proof.
  intros Heq. pose proof (format_03d_read i) as Hi.
  rewrite Heq, format_03d_read in Hi. congruence.
Qed.

(** ** The slot allocator *)

Section Allocator.
Import Bounce.
Variables (d : directory) (end_stem end_ext : string) (count : nat).

Lemma candidate_inj (i j : nat) :
  candidate end_stem end_ext i = candidate end_stem end_ext j -> i = j.
Proof.
  unfold candidate. intros Heq.
  apply String.app_inj, String.app_inj, str_app_inv_tail in Heq.
  now apply format_03d_inj.
Qed.

Lemma block_scan (n : nat) :
  forallb (fun i => negb (path_exists d (candidate end_stem end_ext i)))
          (seq n count) = true
  <-> block_free d end_stem end_ext count n.
Proof.
  rewrite List.forallb_forall. unfold block_free. split.
  - intros Hall i Hi. apply negb_true_iff, Hall, in_seq. lia.
  - intros Hfree i Hi%in_seq. apply negb_true_iff, Hfree. lia.
Qed.

Lemma block_collision (n : nat) :
  ~ block_free d end_stem end_ext count n ->
  exists i, n <= i < n + count
            /\ path_exists d (candidate end_stem end_ext i) = true.
Proof.
  rewrite <- block_scan. intros Hno.
  destruct (forallb _ (seq n count)) eqn:Hscan; [congruence |].
  assert (Hex : existsb (fun i => path_exists d (candidate end_stem end_ext i))
                  (seq n count) = true).
  { clear Hno. induction (seq n count) as [|i l IH]; simpl in *;
      [discriminate |].
    destruct (path_exists d (candidate end_stem end_ext i)); simpl in *;
      [reflexivity | now apply IH]. }
  apply List.existsb_exists in Hex as (i & Hi%in_seq & Hex).
  exists i. split; [lia | exact Hex].
Qed.

(** What the scan returns: the first free block from [n] on, found after
    one round per skipped start. *)
Lemma find_from_done (fuel n m : nat) :
  find_free_block_from fuel d end_stem end_ext count n = Done m ->
  n <= m /\ m - n < fuel
  /\ block_free d end_stem end_ext count m
  /\ forall j, n <= j < m -> ~ block_free d end_stem end_ext count j.
Proof.
  revert n. induction fuel as [|fuel IH]; intros n; simpl; [discriminate |].
  destruct (forallb _ (seq n count)) eqn:Hscan.
  - intros [= <-]. apply block_scan in Hscan.
    repeat split; [lia | lia | exact Hscan | intros j Hj; lia].
  - intros (Hle & Hfuel & Hfree & Hmin)%IH.
    repeat split; [lia | lia | exact Hfree |].
    intros j Hj Hj'. destruct (decide (j = n)) as [-> | Hne].
    + apply block_scan in Hj'. congruence.
    + apply (Hmin j); [lia | exact Hj'].
Qed.

(** A free block within reach of the fuel makes the scan return. *)
Lemma find_from_fuel (fuel n m : nat) :
  block_free d end_stem end_ext count m -> n <= m -> m - n < fuel ->
  exists m', find_free_block_from fuel d end_stem end_ext count n = Done m'.
Proof.
  revert n. induction fuel as [|fuel IH]; intros n Hfree Hle Hfuel; [lia |].
  simpl. destruct (forallb _ (seq n count)) eqn:Hscan; [eauto |].
  assert (Hne : n <> m).
  { intros ->. apply block_scan in Hfree. congruence. }
  apply IH; [exact Hfree | lia | lia].
Qed.

End Allocator.

Lemma lookup_remove (c nm : string) (d : directory) :
  dir_lookup nm (dir_remove c d)
  = if String.eqb nm c then None else dir_lookup nm d.
Proof.
  induction d as [|[k v] d IH]; simpl.
  - now destruct (String.eqb nm c).
  - destruct (String.eqb_spec k c) as [-> | Hkc]; simpl.
    + rewrite IH. destruct (String.eqb_spec nm c) as [-> | Hnc];
        [reflexivity |].
      destruct (String.eqb_spec c nm); [congruence | reflexivity].
    + destruct (String.eqb_spec k nm) as [-> | Hkn].
      * destruct (String.eqb_spec nm c); [congruence | reflexivity].
      * exact IH.
Qed.

Lemma length_remove (c : string) (d : directory) :
  path_exists d c = true -> length (dir_remove c d) < length d.
Proof.
  unfold path_exists. induction d as [|[k v] d IH]; simpl; [discriminate |].
  destruct (String.eqb_spec k c) as [-> | Hkc]; simpl.
  - intros _. pose proof (List.filter_length_le
      (fun e : string * node => negb (String.eqb e.1 c)) d). 
    unfold dir_remove. lia.
  - intros Hc%IH. lia.
Qed.

(** Pigeonhole: among the starts [n0 .. n0 + length d * count] one has a
    free block, since every occupied block holds an entry of its own. *)
Lemma free_block_exists (end_stem end_ext : string) (count : nat)
    (d : directory) (n0 : nat) :
  exists m, n0 <= m <= n0 + length d * count
            /\ block_free d end_stem end_ext count m.
Proof.
  remember (length d) as L eqn:HL.
  assert (Hlen : length d <= L) by lia. rewrite HL. clear HL.
  revert d n0 Hlen. induction L as [|L IH]; intros d n0 Hlen.
  - destruct d; [| simpl in Hlen; lia].
    exists n0. split; [simpl; lia | intros i _; reflexivity].
  - destruct (forallb
      (fun i => negb (path_exists d (Bounce.candidate end_stem end_ext i)))
      (seq n0 count)) eqn:Hscan.
    + apply block_scan in Hscan. exists n0. split; [lia | exact Hscan].
    + assert (Hno : ~ block_free d end_stem end_ext count n0).
      { rewrite <- block_scan. congruence. }
      apply block_collision in Hno as (i & Hi & Hex).
      pose proof (length_remove _ _ Hex) as Hshort.
      destruct (IH (dir_remove (Bounce.candidate end_stem end_ext i) d) (S i))
        as (m & Hm & Hfree); [lia |].
      exists m. split; [nia |].
      intros j Hj. specialize (Hfree j Hj). unfold path_exists in *.
      rewrite lookup_remove in Hfree.
      destruct (String.eqb_spec (Bounce.candidate end_stem end_ext j)
                  (Bounce.candidate end_stem end_ext i)) as [Heq | _];
        [| exact Hfree].
      apply candidate_inj in Heq. lia.
Qed.

(** ** [list.sort(key=...)] *)

Section SortFacts.
Context {A : Type} (key : A -> string).

Lemma ltb_le (x y : string) : String.ltb x y = true -> String.le x y.
Proof.
  unfold String.ltb, String.le, String.leb.
  destruct (String.compare x y); simpl; [discriminate | reflexivity | discriminate].
Qed.

Lemma not_ltb_le (x y : string) : String.ltb y x = false -> String.le x y.
Proof.
  unfold String.ltb, String.le, String.leb.
  pose proof (String.compare_antisym x y) as Hs.
  destruct (String.compare y x); rewrite Hs; simpl;
    [reflexivity | discriminate | reflexivity].
Qed.

Lemma ltb_neq (x y : string) : String.ltb x y = true -> x <> y.
Proof.
  intros Hlt ->. unfold String.ltb in Hlt.
  assert (Heq : String.compare y y = Eq).
  { pose proof (String.compare_antisym y y) as Hs.
    destruct (String.compare y y); simpl in Hs; congruence. }
  rewrite Heq in Hlt. discriminate.
Qed.

Lemma insert_by_perm (x : A) (l : list A) :
  Permutation (Py.insert_by key x l) (x :: l).
Proof.
  induction l as [|y l IH]; simpl; [reflexivity |].
  destruct (String.ltb (key y) (key x)); [| reflexivity].
  rewrite IH. apply perm_swap.
Qed.

Lemma sort_by_perm (l : list A) : Permutation (Py.sort_by key l) l.
Proof.
  induction l as [|x l IH]; simpl; [reflexivity |].
  rewrite insert_by_perm. now constructor.
Qed.

Lemma insert_by_sorted (x : A) (l : list A) :
  Sorted (key_le key) l -> Sorted (key_le key) (Py.insert_by key x l).
Proof.
  induction l as [|y l IH]; simpl; intros Hs.
  - repeat constructor.
  - destruct (String.ltb (key y) (key x)) eqn:Hlt.
    + apply Sorted_inv in Hs as [Hs Hhd]. constructor; [now apply IH |].
      destruct l as [|z l]; simpl.
      * constructor. now apply ltb_le.
      * destruct (String.ltb (key z) (key x)).
        -- constructor. now inversion Hhd.
        -- constructor. now apply ltb_le.
    + constructor; [exact Hs |]. constructor. now apply not_ltb_le.
Qed.

Lemma sort_by_sorted (l : list A) : Sorted (key_le key) (Py.sort_by key l).
Proof.
  induction l as [|x l IH]; simpl; [constructor | now apply insert_by_sorted].
Qed.

#[local] Instance key_le_trans : Transitive (key_le key).
Proof. intros a b c Hab Hbc. unfold key_le in *. now transitivity (key b). Qed.

Lemma sort_by_strongly_sorted (l : list A) :
  StronglySorted (key_le key) (Py.sort_by key l).
Proof. apply Sorted_StronglySorted; [apply key_le_trans | apply sort_by_sorted]. Qed.

(** Stability: entries with one key keep their relative order. *)
Lemma insert_by_stable (c : string) (x : A) (l : list A) :
  List.filter (fun a => String.eqb (key a) c) (Py.insert_by key x l)
  = List.filter (fun a => String.eqb (key a) c) (x :: l).
Proof.
  induction l as [|y l IH]; [reflexivity |].
  simpl Py.insert_by. destruct (String.ltb (key y) (key x)) eqn:Hlt;
    [| reflexivity].
  apply ltb_neq in Hlt. simpl in *. rewrite IH.
  destruct (String.eqb_spec (key x) c) as [Hx | Hx];
    destruct (String.eqb_spec (key y) c) as [Hy | Hy];
    try reflexivity. congruence.
Qed.

Lemma sort_by_stable (c : string) (l : list A) :
  List.filter (fun a => String.eqb (key a) c) (Py.sort_by key l)
  = List.filter (fun a => String.eqb (key a) c) l.
Proof.
  induction l as [|x l IH]; [reflexivity |].
  simpl Py.sort_by. rewrite insert_by_stable. simpl. now rewrite IH.
Qed.

Lemma sort_by_In (a : A) (l : list A) : In a (Py.sort_by key l) <-> In a l.
Proof.
  split; apply Permutation_in; [| symmetry]; apply sort_by_perm.
Qed.

Lemma sort_by_length (l : list A) : length (Py.sort_by key l) = length l.
Proof. apply Permutation_length, sort_by_perm. Qed.

End SortFacts.

(** ** Range resolution *)

Section Range.
Import Bounce.

Lemma list_index_lookup (x : string) (l : list string) (i : nat) :
  Py.list_index x l = Some i <->
  l !! i = Some x /\ forall j, j < i -> l !! j <> Some x.
Proof.
  revert i. induction l as [|y l IH]; intros i; simpl.
  - split; [discriminate | now intros [? _]].
  - destruct (String.eqb_spec y x) as [-> | Hne].
    + split.
      * intros [= <-]. split; [reflexivity | intros j Hj; lia].
      * intros [Hi Hmin]. destruct i as [|i]; [reflexivity |].
        now destruct (Hmin 0); [lia |].
    + destruct i as [|i].
      * split.
        -- destruct (Py.list_index x l); discriminate.
        -- intros [Hi _]. simpl in Hi. congruence.
      * destruct (Py.list_index x l) as [k|]; simpl; split.
        -- intros [= <-]. destruct (proj1 (IH k) eq_refl) as [Hk Hmin].
           split; [exact Hk |].
           intros [|j] Hj; simpl; [congruence | apply Hmin; lia].
        -- intros [Hi Hmin]. f_equal.
           assert (Hsome : Some k = Some i); [| congruence].
           apply IH. split; [exact Hi |].
           intros j Hj. apply (Hmin (S j)). lia.
        -- discriminate.
        -- intros [Hi Hmin].
           assert (Hsome : @None nat = Some i); [| discriminate].
           apply IH. split; [exact Hi |].
           intros j Hj. apply (Hmin (S j)). lia.
Qed.

Lemma list_index_None (x : string) (l : list string) :
  Py.list_index x l = None <-> ~ In x l.
Proof.
  induction l as [|y l IH]; simpl; [tauto |].
  destruct (String.eqb_spec y x) as [-> | Hne]; [split; [discriminate | tauto] |].
  destruct (Py.list_index x l); simpl.
  - split; [discriminate |]. intros Hno. exfalso. apply Hno. right.
    destruct IH as [_ IH]. destruct (In_dec String.string_dec x l); [assumption|].
    now specialize (IH n0).
  - split; [| reflexivity]. intros _ [? | Hin]; [congruence |].
    now apply (proj1 IH).
Qed.

(** The last step of [resolve_range]: the bounds check. *)
Lemma range_check (n s0 e0 : Z) :
  (if (s0 <? 0)%Z || (n <=? e0)%Z || (e0 <? s0)%Z
   then Exit InvalidRange else Done (s0, e0))
  = if bool_decide (0 <= s0 <= e0 /\ e0 < n)%Z
    then Done (s0, e0) else Exit InvalidRange.
Proof.
  case_bool_decide as Hd.
  - destruct (Z.ltb_spec s0 0), (Z.leb_spec n e0), (Z.ltb_spec e0 s0);
      simpl; try reflexivity; lia.
  - destruct (Z.ltb_spec s0 0), (Z.leb_spec n e0), (Z.ltb_spec e0 s0);
      simpl; try reflexivity; lia.
Qed.

Lemma resolve_range_bounds (files : list string) (args : Namespace) (s e : Z) :
  resolve_range files args = Done (s, e) ->
  (0 <= s <= e /\ e < Z.of_nat (length files))%Z.
Proof.
  unfold resolve_range.
  match goal with |- context [mbind _ ?m] => destruct m as [[s0 e0]| |] end;
    simpl; [| discriminate | discriminate].
  rewrite range_check. case_bool_decide; [| discriminate].
  now intros [= <- <-].
Qed.

End Range.

(** ** The directory under the copy loop *)

Lemma lookup_app_found (nm : string) (v : node) (d d' : directory) :
  dir_lookup nm d = Some v -> dir_lookup nm (d ++ d') = Some v.
Proof.
  induction d as [|[k u] d IH]; simpl; [discriminate |].
  destruct (String.eqb k nm); [trivial | exact IH].
Qed.

Lemma lookup_app_fresh (nm : string) (d d' : directory) :
  dir_lookup nm d = None -> dir_lookup nm (d ++ d') = dir_lookup nm d'.
Proof.
  induction d as [|[k u] d IH]; simpl; [reflexivity |].
  destruct (String.eqb k nm); [discriminate | exact IH].
Qed.

Lemma upsert_fresh (nm : string) (v : node) (d : directory) :
  dir_lookup nm d = None -> upsert nm v d = d ++ [(nm, v)].
Proof.
  induction d as [|[k u] d IH]; simpl; [reflexivity |].
  destruct (String.eqb k nm); [discriminate |].
  intros Hd. now rewrite IH.
Qed.

Lemma path_exists_lookup (d : directory) (nm : string) :
  path_exists d nm = false <-> dir_lookup nm d = None.
Proof. unfold path_exists. destruct (dir_lookup nm d); split; congruence. Qed.

Lemma isfile_lookup (d : directory) (nm : string) :
  isfile d nm = true -> dir_lookup nm d = Some (File (file_data d nm)).
Proof.
  unfold isfile, file_data.
  destruct (dir_lookup nm d) as [[b | cs] |]; congruence.
Qed.

Lemma lookup_In (d : directory) (nm : string) (v : node) :
  dir_lookup nm d = Some v -> In nm (listdir d).
Proof.
  induction d as [|[k u] d IH]; simpl; [discriminate |].
  destruct (String.eqb_spec k nm) as [-> | Hne]; [now left |].
  intros Hd. right. now apply IH.
Qed.

(** ** Python ranges and indices *)

Lemma range_down_nil (start stop : Z) :
  (start <= stop)%Z -> Py.range_down start stop = [].
Proof.
  intros Hle. unfold Py.range_down.
  now replace (Z.to_nat (start - stop)) with 0 by lia.
Qed.

Lemma range_down_cons (start stop : Z) :
  (stop < start)%Z ->
  Py.range_down start stop = start :: Py.range_down (start - 1) stop.
Proof.
  intros Hlt. unfold Py.range_down.
  replace (Z.to_nat (start - stop)) with (S (Z.to_nat (start - 1 - stop)))
    by lia.
  simpl. f_equal; [lia |].
  rewrite <- seq_shift, map_map. apply map_ext. intros j. lia.
Qed.

Lemma range_down_length (start stop : Z) :
  length (Py.range_down start stop) = Z.to_nat (start - stop).
Proof. unfold Py.range_down. now rewrite length_map, length_seq. Qed.

Lemma range_down_In (start stop i : Z) :
  In i (Py.range_down start stop) <-> (stop < i <= start)%Z.
Proof.
  unfold Py.range_down. rewrite in_map_iff. split.
  - intros (j & <- & Hj%in_seq). lia.
  - intros Hi. exists (Z.to_nat (start - i)). split; [lia |].
    apply in_seq. lia.
Qed.

Lemma index_nonneg {A} (l : list A) (i : Z) :
  (0 <= i)%Z -> Py.index l i = l !! Z.to_nat i.
Proof.
  intros Hi. unfold Py.index. now destruct (Z.leb_spec 0 i); [| lia].
Qed.

Lemma planned_range_down (files : list string) (end_stem end_ext : string)
    (s e : Z) (n : nat) :
  (0 <= s <= e)%Z ->
  planned files end_stem end_ext n (Py.range_down (e - 1) (s - 1))
  = mirror_pairs files end_stem end_ext n s e.
Proof.
  intros Hse. unfold mirror_pairs.
  remember (Z.to_nat (e - s)) as m eqn:Hm.
  revert e n Hse Hm. induction m as [|m IH]; intros e n Hse Hm.
  - rewrite range_down_nil by lia. reflexivity.
  - rewrite range_down_cons by lia. simpl planned.
    rewrite (IH (e - 1)%Z (S n)) by lia.
    simpl. f_equal.
    + rewrite index_nonneg by lia. do 3 f_equal; lia.
    + rewrite <- seq_shift, map_map. apply map_ext. intros j.
      f_equal; [do 2 f_equal | f_equal]; lia.
Qed.

(** ** The copy loop and the whole run of the bounce tool *)

Section Mirror.
Import Bounce.
Context `{Host}.

Lemma list_images_isfile (flt : option (gset string)) (d : directory)
    (f : string) :
  In f (list_images flt d) -> isfile d f = true.
Proof.
  unfold list_images. rewrite sort_by_In, filter_In. intros [_ Hf].
  now apply andb_true_iff in Hf as [Hf _].
Qed.

Lemma copy2_fresh (src dst : string) (b : list Byte.byte) (w : world) :
  dir_lookup src (cwd w) = Some (File b) ->
  dir_lookup dst (cwd w) = None ->
  copy2 src dst w
  = (Done tt, {| cwd := cwd w ++ [(dst, File b)]; stdout := stdout w |}).
Proof.
  intros Hsrc Hdst. unfold copy2. rewrite Hsrc, Hdst.
  destruct (String.eqb_spec src dst) as [-> | _]; [congruence |].
  now rewrite upsert_fresh.
Qed.

Lemma copy_frames_run (files : list string) (end_stem end_ext : string)
    (d0 : directory) (srcs : list Z) (k : nat) (created : list string)
    (w : world) :
  (forall i, In i srcs -> exists f,
      Py.index files i = Some f
      /\ dir_lookup f (cwd w) = Some (File (file_data d0 f))) ->
  (forall j, k <= j < k + length srcs ->
      path_exists (cwd w) (candidate end_stem end_ext j) = false) ->
  copy_frames files end_stem end_ext false k srcs created w
  = (Done (created ++ (planned files end_stem end_ext k srcs).*2),
     {| cwd := cwd w ++ copies d0 (planned files end_stem end_ext k srcs);
        stdout := stdout w
                  ++ map (fun p => CopyLine p.1 p.2)
                       (planned files end_stem end_ext k srcs) |}).
Proof.
  revert k created w. induction srcs as [|i srcs IH]; intros k created w Hsrc Hfree.
  - simpl. rewrite !app_nil_r. now destruct w.
  - destruct (Hsrc i) as (f & Hf & Hlook); [now left |].
    assert (Hdst : dir_lookup (candidate end_stem end_ext k) (cwd w) = None).
    { apply path_exists_lookup, Hfree. simpl. lia. }
    simpl copy_frames. unfold mbind, M_bind, lift.
    rewrite Hf. simpl from_index. cbv beta iota.
    rewrite (copy2_fresh _ _ _ _ Hlook Hdst). unfold print. simpl cwd.
    simpl stdout. rewrite IH.
    + simpl. rewrite Hf. simpl. rewrite <- !app_assoc. reflexivity.
    + simpl cwd. intros i' Hi'.
      destruct (Hsrc i') as (f' & Hf' & Hlook'); [now right |].
      exists f'. split; [exact Hf' | now apply lookup_app_found].
    + simpl cwd. intros j Hj. apply path_exists_lookup.
      rewrite lookup_app_fresh by (apply path_exists_lookup, Hfree; simpl; lia).
      simpl. destruct (String.eqb_spec (candidate end_stem end_ext k)
                         (candidate end_stem end_ext j)) as [Heq | _];
        [| reflexivity].
      apply candidate_inj in Heq. lia.
Qed.

Lemma copy_frames_dry (files : list string) (end_stem end_ext : string)
    (srcs : list Z) (k : nat) (created : list string) (w : world) :
  (forall i, In i srcs -> is_Some (Py.index files i)) ->
  copy_frames files end_stem end_ext true k srcs created w
  = (Done (created ++ (planned files end_stem end_ext k srcs).*2),
     {| cwd := cwd w;
        stdout := stdout w
                  ++ map (fun p => DryLine p.1 p.2)
                       (planned files end_stem end_ext k srcs) |}).
Proof.
  revert k created w. induction srcs as [|i srcs IH]; intros k created w Hsrc.
  - simpl. rewrite !app_nil_r. now destruct w.
  - destruct (Hsrc i) as [f Hf]; [now left |].
    simpl copy_frames. unfold mbind, M_bind, lift.
    rewrite Hf. simpl from_index. cbv beta iota. unfold print. simpl cwd.
    simpl stdout. rewrite IH by (intros i' Hi'; apply Hsrc; now right).
    simpl. rewrite Hf. simpl. rewrite <- !app_assoc. reflexivity.
Qed.

Lemma find_free_block_from_total (d : directory) (end_stem end_ext : string)
    (count fuel : nat) :
  length d * count < fuel ->
  exists n, find_free_block_from fuel d end_stem end_ext count 1 = Done n.
Proof.
  intros Hfuel.
  destruct (free_block_exists end_stem end_ext count d 1) as (m & Hm & Hfree).
  apply (find_from_fuel d end_stem end_ext count fuel 1 m Hfree); lia.
Qed.

(** The whole run on a range with something to duplicate. *)
Lemma main_run (fuel : nat) (args : Namespace) (w : world) (s e : Z) :
  list_images (ext_filter_of args) (cwd w) <> [] ->
  resolve_range (list_images (ext_filter_of args) (cwd w)) args = Done (s, e) ->
  s <> e ->
  length (cwd w) * Z.to_nat (e - s) < fuel ->
  let files := list_images (ext_filter_of args) (cwd w) in
  exists end_file n,
    files !! Z.to_nat e = Some end_file
    /\ find_free_block_from fuel (cwd w) (Py.splitext end_file).1
         (Py.splitext end_file).2 (Z.to_nat (e - s)) 1 = Done n
    /\ let pairs :=
         mirror_pairs files (Py.splitext end_file).1 (Py.splitext end_file).2
           n s e in
       main fuel args w
       = (Done tt,
          {| cwd := if arg_dry_run args then cwd w
                    else cwd w ++ copies (cwd w) pairs;
             stdout :=
               stdout w
               ++ [InfoTotal (length files); InfoRange (s + 1) (e + 1);
                   InfoEndFile end_file; InfoPlanned (Z.to_nat (e - s))]
               ++ map (fun p => if arg_dry_run args then DryLine p.1 p.2
                                else CopyLine p.1 p.2) pairs
               ++ [PreviewHeader;
                   PreviewLine (preview_window files e pairs.*2)] |}).
Proof.
  intros Hne Hres Hse Hfuel files.
  pose proof (resolve_range_bounds _ _ _ _ Hres) as Hb. fold files in Hb, Hres, Hne.
  destruct (lookup_lt_is_Some_2 files (Z.to_nat e)) as [end_file Hend]; [lia |].
  destruct (find_free_block_from_total (cwd w) (Py.splitext end_file).1
              (Py.splitext end_file).2 (Z.to_nat (e - s)) fuel Hfuel)
    as [n Hn].
  exists end_file, n. split; [exact Hend |]. split; [exact Hn |].
  intros pairs. unfold main. fold files.
  unfold mbind at 1, M_bind, get_cwd. cbv beta iota. fold files.
  rewrite bool_decide_eq_false_2 by exact Hne.
  unfold mbind at 1, M_bind, lift. rewrite Hres. cbv beta iota.
  rewrite bool_decide_eq_false_2.
  2:{ intros Hnil. apply (f_equal length) in Hnil.
      rewrite range_down_length in Hnil. simpl in Hnil. lia. }
  unfold mbind at 1, M_bind. rewrite index_nonneg by lia. rewrite Hend.
  simpl from_index. cbv beta iota.
  destruct (Py.splitext end_file) as [end_stem end_ext] eqn:Hsplit.
  simpl in Hn, pairs.
  unfold mbind at 1, M_bind, find_free_block.
  rewrite range_down_length.
  replace (Z.to_nat (e - 1 - (s - 1))) with (Z.to_nat (e - s)) by lia.
  rewrite Hn. cbv beta iota. unfold print, mbind, M_bind. simpl cwd. simpl stdout.
  assert (Hsrc : forall i, In i (Py.range_down (e - 1) (s - 1)) ->
            exists f, Py.index files i = Some f
                      /\ dir_lookup f (cwd w)
                         = Some (File (file_data (cwd w) f))).
  { intros i Hi%range_down_In. rewrite index_nonneg by lia.
    destruct (lookup_lt_is_Some_2 files (Z.to_nat i)) as [f Hf]; [lia |].
    exists f. split; [exact Hf |].
    apply isfile_lookup, (list_images_isfile (ext_filter_of args)).
    apply list_elem_of_In, list_elem_of_lookup. eauto. }
  destruct (arg_dry_run args).
  - rewrite copy_frames_dry by (intros i Hi; destruct (Hsrc i Hi) as (f & -> & _); eauto).
    rewrite planned_range_down by lia. fold pairs.
    simpl. rewrite <- !app_assoc. reflexivity.
  - rewrite (copy_frames_run _ _ _ (cwd w)).
    + rewrite planned_range_down by lia. fold pairs.
      simpl. rewrite <- !app_assoc. reflexivity.
    + exact Hsrc.
    + simpl cwd. rewrite range_down_length.
      replace (Z.to_nat (e - 1 - (s - 1))) with (Z.to_nat (e - s)) by lia.
      intros j Hj.
      now apply (find_from_done _ _ _ _ _ _ _ Hn).
Qed.

End Mirror.

(** ** The slot allocator: smallest free block, and termination *)

Section AllocatorClaims.
Import Bounce.

Lemma find_from_unique (d : directory) (end_stem end_ext : string)
    (count f1 f2 n m1 m2 : nat) :
  find_free_block_from f1 d end_stem end_ext count n = Done m1 ->
  find_free_block_from f2 d end_stem end_ext count n = Done m2 ->
  m1 = m2.
Proof.
  intros (Hle1 & _ & Hfree1 & Hmin1)%find_from_done
         (Hle2 & _ & Hfree2 & Hmin2)%find_from_done.
  destruct (Nat.lt_trichotomy m1 m2) as [Hlt | [Heq | Hgt]]; [| exact Heq |].
  - exfalso. apply (Hmin2 m1); [lia | exact Hfree1].
  - exfalso. apply (Hmin1 m2); [lia | exact Hfree2].
Qed.

Lemma find_from_no_exit (d : directory) (end_stem end_ext : string)
    (count fuel n : nat) (e : error) :
  find_free_block_from fuel d end_stem end_ext count n <> Exit e.
Proof.
  revert n. induction fuel as [|fuel IH]; intros n; simpl; [discriminate |].
  destruct (forallb _ (seq n count)); [discriminate | apply IH].
Qed.

(** C3. Given enough rounds, the slot allocator returns the smallest
    positive [n] whose block [n .. n + count - 1] of zero-padded names is
    free: every smaller start has a colliding name, the scan spends one
    round per start ([n] rounds, no fewer), and with exactly the blocks
    [1..3] and [7..9] taken a request for three slots returns 4. *)
Theorem find_free_block_smallest (w : world) (end_stem end_ext : string)
    (count fuel : nat) :
  length (cwd w) * count < fuel ->
  exists n,
    find_free_block fuel end_stem end_ext count w = (Done n, w)
    /\ 1 <= n
    /\ block_free (cwd w) end_stem end_ext count n
    /\ (forall m, 1 <= m < n ->
          exists i, m <= i < m + count
            /\ path_exists (cwd w) (candidate end_stem end_ext i) = true)
    /\ find_free_block n end_stem end_ext count w = (Done n, w)
    /\ (forall f, f < n ->
          find_free_block f end_stem end_ext count w = (OutOfFuel, w))
    /\ ((forall i, 1 <= i <= 9 ->
           path_exists (cwd w) (candidate end_stem end_ext i)
           = (i <=? 3) || (7 <=? i)) ->
        count = 3 -> n = 4).
Proof.
  intros Hfuel. unfold find_free_block.
  destruct (find_free_block_from_total (cwd w) end_stem end_ext count fuel
              Hfuel) as [n Hn].
  pose proof (find_from_done _ _ _ _ _ _ _ Hn) as (Hle & _ & Hfree & Hmin).
  exists n. rewrite Hn. split; [reflexivity |]. split; [exact Hle |].
  split; [exact Hfree |]. split; [| split; [| split]].
  - intros m Hm. apply block_collision, Hmin, Hm.
  - destruct (find_from_fuel (cwd w) end_stem end_ext count n 1 n Hfree)
      as [m' Hm']; [lia | lia |].
    rewrite Hm'. now rewrite (find_from_unique _ _ _ _ _ _ _ _ _ Hm' Hn).
  - intros f Hf.
    destruct (find_free_block_from f (cwd w) end_stem end_ext count 1)
      as [m' | e |] eqn:Hm'; [| | reflexivity].
    + pose proof (find_from_unique _ _ _ _ _ _ _ _ _ Hm' Hn) as ->.
      apply find_from_done in Hm'. lia.
    + now apply find_from_no_exit in Hm'.
  - intros Hocc ->.
    assert (Hfree4 : block_free (cwd w) end_stem end_ext 3 4).
    { intros i Hi. rewrite Hocc by lia.
      destruct (Nat.leb_spec i 3), (Nat.leb_spec 7 i); simpl; lia || reflexivity. }
    assert (Hn4 : n <= 4).
    { destruct (Nat.le_gt_cases n 4) as [? | Hgt]; [assumption |].
      exfalso. apply (Hmin 4); [lia | exact Hfree4]. }
    assert (Hn3 : 3 < n); [| lia].
    destruct (Nat.le_gt_cases n 3) as [Hle3 | ?]; [| assumption].
    exfalso. pose proof (Hfree 3 ltac:(lia)) as Hc.
    rewrite Hocc in Hc by lia. discriminate.
Qed.

Lemma find_free_block_smallest_witness :
  find_free_block 22 "x" ".png" 3 (fresh two_blocks)
  = (Done 4, fresh two_blocks).
Proof.
  destruct (find_free_block_smallest (fresh two_blocks) "x" ".png" 3 22)
    as (n & Hrun & _ & _ & _ & _ & _ & Hscene); [simpl; lia |].
  rewrite Hrun. f_equal. f_equal. apply Hscene; [| reflexivity].
  intros i Hi.
  assert (Hcase : i = 1 \/ i = 2 \/ i = 3 \/ i = 4 \/ i = 5 \/ i = 6
                  \/ i = 7 \/ i = 8 \/ i = 9) by lia.
  repeat (destruct Hcase as [-> | Hcase]; [reflexivity |]).
  now subst.
Defined.

(** C10. With finitely many entries in the directory the search loop
    ends: one of the starts [1 .. 1 + length d * count] has a free block,
    and the allocator returns it whenever it may run more than
    [length d * count] rounds. *)
Theorem find_free_block_terminates (w : world) (end_stem end_ext : string)
    (count : nat) :
  exists n,
    1 <= n <= 1 + length (cwd w) * count
    /\ block_free (cwd w) end_stem end_ext count n
    /\ forall fuel, length (cwd w) * count < fuel ->
         find_free_block fuel end_stem end_ext count w = (Done n, w).
Proof.
  destruct (free_block_exists end_stem end_ext count (cwd w) 1)
    as (m & Hm & Hfree).
  destruct (find_from_fuel (cwd w) end_stem end_ext count
              (S (length (cwd w) * count)) 1 m Hfree) as [n Hn]; [lia | lia |].
  pose proof (find_from_done _ _ _ _ _ _ _ Hn) as (Hle & _ & Hfree' & Hmin).
  exists n. split; [| split; [exact Hfree' |]].
  - split; [exact Hle |].
    destruct (Nat.le_gt_cases n m) as [? | Hgt]; [lia |].
    exfalso. apply (Hmin m); [lia | exact Hfree].
  - intros fuel Hfuel. unfold find_free_block.
    destruct (find_free_block_from_total (cwd w) end_stem end_ext count fuel
                Hfuel) as [n' Hn'].
    rewrite Hn'. now rewrite (find_from_unique _ _ _ _ _ _ _ _ _ Hn' Hn).
Qed.

End AllocatorClaims.

(** ** Range resolution: validity and the forms of the bounds *)

Section RangeClaims.
Import Bounce.
Context `{Host}.

Lemma main_rejects (fuel : nat) (args : Namespace) (w : world) (err : error) :
  list_images (ext_filter_of args) (cwd w) <> [] ->
  resolve_range (list_images (ext_filter_of args) (cwd w)) args = Exit err ->
  main fuel args w = (Exit err, w).
Proof.
  intros Hne Hres. unfold main.
  unfold mbind at 1, M_bind, get_cwd. cbv beta iota.
  rewrite bool_decide_eq_false_2 by exact Hne.
  unfold mbind at 1, M_bind, lift. now rewrite Hres.
Qed.

Lemma resolve_range_no_fuel (files : list string) (args : Namespace) :
  resolve_range files args <> OutOfFuel.
Proof.
  unfold resolve_range, index_from_name.
  destruct args as [[a|] [b|] [f|] [t|] ex dr]; simpl;
    repeat match goal with
    | |- context [String.eqb ?x ?y] => destruct (String.eqb x y); simpl
    | |- context [Py.list_index ?x ?l] => destruct (Py.list_index x l); simpl
    | |- context [(?x <? ?y)%Z] => destruct (x <? y)%Z; simpl
    | |- context [(?x <=? ?y)%Z] => destruct (x <=? y)%Z; simpl
    end; discriminate.
Qed.

(** Case analysis on the comparisons of the bounds check. *)
Ltac range_cases :=
  repeat match goal with
  | |- context [(?x <? ?y)%Z] => destruct (Z.ltb_spec x y); simpl
  | |- context [(?x <=? ?y)%Z] => destruct (Z.leb_spec x y); simpl
  | |- context [bool_decide ?P] => destruct (bool_decide_reflect P); simpl
  end; first [reflexivity | lia].

(** C4. On a non-empty image set of length [L], range resolution fails or
    returns [(s, e)] with [0 <= s <= e < L]: no bounds give [(0, L - 1)],
    1-based indices are taken minus one, file names resolve to the
    position of their first exact match and fail when absent, and a
    failed resolution ends the run with the directory untouched. *)
Theorem resolve_range_valid (files : list string) (args : Namespace) :
  files <> [] ->
  let L := Z.of_nat (length files) in
  ((exists err, resolve_range files args = Exit err)
   \/ exists s e, resolve_range files args = Done (s, e)
                  /\ (0 <= s <= e /\ e < L)%Z)
  /\ (arg_start args = None -> arg_end args = None ->
      arg_from_name args = None -> arg_to_name args = None ->
      resolve_range files args = Done (0, L - 1)%Z)
  /\ (forall a b, arg_from_name args = None -> arg_to_name args = None ->
      arg_start args = Some a -> arg_end args = Some b ->
      resolve_range files args
      = if bool_decide (1 <= a <= b /\ b <= L)%Z
        then Done (a - 1, b - 1)%Z else Exit InvalidRange)
  /\ (forall f t, arg_from_name args = Some f -> arg_to_name args = Some t ->
      f <> EmptyString -> t <> EmptyString ->
      resolve_range files args
      = match Py.list_index f files, Py.list_index t files with
        | None, _ => Exit (NameNotFound f)
        | Some _, None => Exit (NameNotFound t)
        | Some i, Some j =>
            if bool_decide (i <= j) then Done (Z.of_nat i, Z.of_nat j)
            else Exit InvalidRange
        end)
  /\ (forall f i, Py.list_index f files = Some i <->
        files !! i = Some f /\ forall j, j < i -> files !! j <> Some f)
  /\ (forall f, Py.list_index f files = None <-> ~ In f files)
  /\ (forall fuel w err,
        list_images (ext_filter_of args) (cwd w) = files ->
        resolve_range files args = Exit err ->
        main fuel args w = (Exit err, w)).
Proof.
  intros Hne L.
  split; [| split; [| split; [| split; [| split; [| split]]]]].
  - destruct (resolve_range files args) as [[s e] | err |] eqn:Hres.
    + right. exists s, e. split; [reflexivity |].
      now apply resolve_range_bounds in Hres.
    + left. eauto.
    + now apply resolve_range_no_fuel in Hres.
  - intros Hs He Hf Ht. unfold resolve_range. rewrite Hs, He, Hf, Ht. simpl.
    assert (0 < L)%Z by (destruct files; [congruence | simpl in L; lia]).
    fold L. range_cases.
  - intros a b Hf Ht Hs He. unfold resolve_range. rewrite Hs, He, Hf, Ht.
    simpl. fold L. range_cases.
  - intros f t Hf Ht Hfe Hte. unfold resolve_range, index_from_name.
    rewrite Hf, Ht. simpl.
    apply String.eqb_neq in Hfe, Hte. rewrite Hfe, Hte. simpl.
    destruct (Py.list_index f files) as [i|]; simpl; [| reflexivity].
    destruct (Py.list_index t files) as [j|] eqn:Hj; simpl; [| reflexivity].
    apply list_index_lookup in Hj as [Hj%lookup_lt_Some _].
    fold L. range_cases.
  - intros f i. apply list_index_lookup.
  - intros f. apply list_index_None.
  - intros fuel w err <- Hres. now apply main_rejects.
Qed.

End RangeClaims.

Lemma resolve_range_valid_witness :
  Bounce.resolve_range ["a.png"; "b.png"] (by_index 1 2)
  = Bounce.Done (0, 1)%Z.
Proof.
  destruct (@resolve_range_valid ascii_host ["a.png"; "b.png"] (by_index 1 2))
    as (_ & _ & Hidx & _); [discriminate |].
  rewrite (Hidx 1%Z 2%Z) by reflexivity. reflexivity.
Defined.

Section FormClaims.
Import Bounce.

(** C5, as stated, fails: index bounds given together with file-name
    bounds are not an error; the names are used and the indices ignored
    (here [--start 2 --end 2] with the names of images 1 and 2). *)
Lemma index_with_names_accepted :
  resolve_range ["a.png"; "b.png"] both_forms = Done (0, 1)%Z
  /\ ~ (forall files args,
          is_Some (arg_start args) \/ is_Some (arg_end args) ->
          is_Some (arg_from_name args) \/ is_Some (arg_to_name args) ->
          exists err, resolve_range files args = Exit err).
Proof.
  split; [reflexivity |]. intros Hclaim.
  destruct (Hclaim ["a.png"; "b.png"] both_forms) as [err Herr];
    [left; eexists; reflexivity | left; eexists; reflexivity |].
  discriminate Herr.
Qed.

(** C5, amended. One file-name bound without the other is an error; with
    no file-name bound, one index bound without the other is an error;
    a pair of file names takes priority, and index bounds given with it
    are ignored; a range is accepted only for a pair of non-empty file
    names, or else a pair of indices, or else no bound at all. *)
Theorem resolve_range_forms (files : list string) (args : Namespace) :
  (is_Some (arg_from_name args) /\ arg_to_name args = None
   \/ arg_from_name args = None /\ is_Some (arg_to_name args) ->
   resolve_range files args = Exit NamesTogether)
  /\ (arg_from_name args = None -> arg_to_name args = None ->
      is_Some (arg_start args) /\ arg_end args = None
      \/ arg_start args = None /\ is_Some (arg_end args) ->
      resolve_range files args = Exit IndexTogether)
  /\ (is_Some (arg_from_name args) -> is_Some (arg_to_name args) ->
      resolve_range files args = resolve_range files (without_index args))
  /\ (forall s e, resolve_range files args = Done (s, e) ->
      (exists f t, arg_from_name args = Some f /\ arg_to_name args = Some t
                   /\ f <> EmptyString /\ t <> EmptyString)
      \/ (arg_from_name args = None /\ arg_to_name args = None
          /\ is_Some (arg_start args) /\ is_Some (arg_end args))
      \/ (arg_from_name args = None /\ arg_to_name args = None
          /\ arg_start args = None /\ arg_end args = None)).
Proof.
  destruct args as [a b f t ex dr]. unfold resolve_range. simpl.
  split; [| split; [| split]].
  - intros [[[f' ->] ->] | [-> [t' ->]]]; simpl; [| reflexivity].
    now destruct (String.eqb f' "").
  - intros -> -> [[[a' ->] ->] | [-> [b' ->]]]; reflexivity.
  - intros [f' ->] [t' ->]. reflexivity.
  - intros s e. destruct f as [f'|], t as [t'|]; simpl.
    + destruct (String.eqb_spec f' ""), (String.eqb_spec t' ""); simpl;
        try discriminate.
      intros _. left. exists f', t'. repeat split; assumption.
    + destruct (String.eqb f' ""); discriminate.
    + discriminate.
    + destruct a as [a'|], b as [b'|]; simpl; try discriminate; intros _.
      * right. left. repeat split; eauto.
      * right. right. repeat split; reflexivity.
Qed.

End FormClaims.

(** ** The mirror generator *)

Lemma lookup_copies (d : directory) (pairs : list (string * string))
    (j : nat) (src dst : string) :
  NoDup pairs.*2 -> pairs !! j = Some (src, dst) ->
  dir_lookup dst (copies d pairs) = Some (File (file_data d src)).
Proof.
  revert j. induction pairs as [|[a b] pairs IH]; intros j Hnd Hj;
    [discriminate |].
  simpl in *. apply NoDup_cons in Hnd as [Hfresh Hnd].
  destruct j as [|j]; simpl in Hj.
  - injection Hj as -> ->. now rewrite String.eqb_refl.
  - destruct (String.eqb_spec b dst) as [-> | _]; [| now apply (IH j)].
    exfalso. apply Hfresh. apply list_elem_of_fmap. exists (src, dst).
    split; [reflexivity |]. apply list_elem_of_lookup. eauto.
Qed.

Lemma copies_names (d : directory) (pairs : list (string * string)) :
  listdir (copies d pairs) = pairs.*2.
Proof.
  unfold listdir, copies. induction pairs as [|p pairs IH]; simpl;
    [reflexivity | f_equal; exact IH].
Qed.

Lemma mirror_pairs_lookup (files : list string) (end_stem end_ext : string)
    (n : nat) (s e : Z) (j : nat) :
  j < Z.to_nat (e - s) ->
  mirror_pairs files end_stem end_ext n s e !! j
  = Some (default EmptyString (files !! (Z.to_nat e - 1 - j)),
          Bounce.candidate end_stem end_ext (n + j)).
Proof.
  intros Hj. unfold mirror_pairs.
  change (map ?f ?l) with (f <$> l).
  rewrite list_lookup_fmap, lookup_seq_lt by exact Hj. reflexivity.
Qed.

Lemma mirror_pairs_slots (files : list string) (end_stem end_ext : string)
    (n : nat) (s e : Z) :
  (mirror_pairs files end_stem end_ext n s e).*2
  = map (fun j => Bounce.candidate end_stem end_ext (n + j))
      (seq 0 (Z.to_nat (e - s))).
Proof.
  unfold mirror_pairs. change (map ?f ?l) with (f <$> l) at 2.
  change ((?f <$> ?l).*2) with (snd <$> (f <$> l)).
  rewrite <- list_fmap_compose. reflexivity.
Qed.

Lemma mirror_pairs_NoDup (files : list string) (end_stem end_ext : string)
    (n : nat) (s e : Z) :
  NoDup (mirror_pairs files end_stem end_ext n s e).*2.
Proof.
  rewrite mirror_pairs_slots. apply NoDup_fmap_2_strong; [| apply NoDup_seq].
  intros i j _ _ Heq%candidate_inj. lia.
Qed.

(** ** The preview window *)

Lemma preview_window_eq (files created : list string) (e : Z) :
  (0 <= e < Z.of_nat (length files))%Z ->
  Bounce.preview_window files e created
  = window_around 2 files (Z.to_nat e) created.
Proof.
  intros He. unfold Bounce.preview_window, window_around.
  unfold Py.slice_to, Py.slice_from, Py.slice, Py.bound.
  destruct (Z.ltb_spec (e + 1) 0) as [? | _]; [lia |].
  destruct (Z.ltb_spec (Z.max 0 (e - 2)) 0) as [? | _]; [lia |].
  replace (Z.to_nat (e + 1) `min` length files) with (S (Z.to_nat e)) by lia.
  set (E := Z.to_nat e). set (A := take (S E) files).
  set (B := drop (S E) files).
  assert (HA : length A = S E) by (unfold A; rewrite length_take; lia).
  assert (HB : length B = length files - S E)
    by (unfold B; now rewrite length_drop).
  rewrite !length_app, HA, HB.
  match goal with |- context [(?x <? 0)%Z] =>
    destruct (Z.ltb_spec x 0) as [? | _]; [lia |] end.
  replace (Z.to_nat (Z.max 0 (e - 2))
           `min` (S E + (length created + (length files - S E))))
    with (E - 2) by lia.
  match goal with |- take ?n _ = _ =>
    replace n with (S E - (E - 2) + (length created
                    + (2 `min` (length files - S E)))) by lia end.
  rewrite drop_app_le by lia.
  rewrite take_app_ge by (rewrite length_drop; lia).
  rewrite length_drop, HA.
  replace (S E - (E - 2) + (length created + 2 `min` (length files - S E))
           - (S E - (E - 2)))
    with (length created + 2 `min` (length files - S E)) by lia.
  rewrite take_app_ge by lia.
  replace (length created + 2 `min` (length files - S E) - length created)
    with (2 `min` (length files - S E)) by lia.
  f_equal. f_equal. rewrite <- HB, <- take_take. now rewrite (take_ge B).
Qed.

Section MirrorClaims.
Import Bounce.
Context `{Host}.

Lemma main_nothing (fuel : nat) (args : Namespace) (w : world) (s : Z) :
  list_images (ext_filter_of args) (cwd w) <> [] ->
  resolve_range (list_images (ext_filter_of args) (cwd w)) args = Done (s, s) ->
  main fuel args w
  = (Done tt, {| cwd := cwd w; stdout := stdout w ++ [NothingToDuplicate] |}).
Proof.
  intros Hne Hres. unfold main.
  unfold mbind at 1, M_bind, get_cwd. cbv beta iota.
  rewrite bool_decide_eq_false_2 by exact Hne.
  unfold mbind at 1, M_bind, lift. rewrite Hres. cbv beta iota.
  rewrite range_down_nil by lia.
  rewrite bool_decide_eq_true_2 by reflexivity. reflexivity.
Qed.

(** C1. For an image set [files] and a resolved range [(s, e)]: when
    [s = e] the run prints that there is nothing to duplicate, ends
    normally and leaves the directory as it was; otherwise (in a real run,
    not a dry one) it ends normally with exactly [e - s] new entries, in
    the free block of names after the end frame, slot [j] holding the
    bytes of [files[e - 1 - j]]; on [a.png .. d.png] with the whole range
    these are [d_001.png], [d_002.png], [d_003.png], copies of [c.png],
    [b.png], [a.png].  A dry run ends normally too and leaves the
    directory as it was. *)
Theorem bounce_mirror (fuel : nat) (args : Namespace) (w : world) (s e : Z) :
  let files := list_images (ext_filter_of args) (cwd w) in
  files <> [] ->
  resolve_range files args = Done (s, e) ->
  (s = e ->
   main fuel args w
   = (Done tt,
      {| cwd := cwd w; stdout := stdout w ++ [NothingToDuplicate] |}))
  /\ (s <> e -> arg_dry_run args = false ->
      length (cwd w) * Z.to_nat (e - s) < fuel ->
      exists end_file n out,
        let end_stem := (Py.splitext end_file).1 in
        let end_ext := (Py.splitext end_file).2 in
        let pairs := mirror_pairs files end_stem end_ext n s e in
        files !! Z.to_nat e = Some end_file
        /\ find_free_block_from fuel (cwd w) end_stem end_ext
             (Z.to_nat (e - s)) 1 = Done n
        /\ main fuel args w
           = (Done tt, {| cwd := cwd w ++ copies (cwd w) pairs;
                          stdout := out |})
        /\ listdir (cwd w ++ copies (cwd w) pairs)
           = listdir (cwd w) ++ pairs.*2
        /\ Z.of_nat (length pairs.*2) = (e - s)%Z
        /\ NoDup pairs.*2
        /\ (forall dst, In dst pairs.*2 -> path_exists (cwd w) dst = false)
        /\ (forall j, j < Z.to_nat (e - s) ->
              exists src,
                files !! (Z.to_nat e - 1 - j) = Some src
                /\ isfile (cwd w) src = true
                /\ dir_lookup (candidate end_stem end_ext (n + j))
                     (cwd w ++ copies (cwd w) pairs)
                   = Some (File (file_data (cwd w) src))))
  /\ (s <> e -> arg_dry_run args = true ->
      length (cwd w) * Z.to_nat (e - s) < fuel ->
      exists out,
        main fuel args w
        = (Done tt, {| cwd := cwd w; stdout := out |}))
  /\ (files = ["a.png"; "b.png"; "c.png"; "d.png"] ->
      s = 0%Z -> e = 3%Z -> arg_dry_run args = false ->
      (forall i, 1 <= i <= 3 ->
         path_exists (cwd w) (candidate "d" ".png" i) = false) ->
      length (cwd w) * 3 < fuel ->
      exists out,
        main fuel args w
        = (Done tt,
           {| cwd := cwd w
                     ++ [("d_001.png", File (file_data (cwd w) "c.png"));
                         ("d_002.png", File (file_data (cwd w) "b.png"));
                         ("d_003.png", File (file_data (cwd w) "a.png"))];
              stdout := out |})).
Proof.
  intros files Hne Hres. split; [| split; [| split]];
    [| | intros Hse Hdry Hfuel;
         destruct (main_run fuel args w s e Hne Hres Hse Hfuel)
           as (end_file & n & _ & _ & Hrun);
         rewrite Hdry in Hrun; eexists; exact Hrun |].
  - intros Heq. subst e. now apply (main_nothing fuel args w s).
  - intros Hse Hdry Hfuel.
    destruct (main_run fuel args w s e Hne Hres Hse Hfuel)
      as (end_file & n & Hend & Hn & Hrun).
    fold files in Hend, Hn, Hrun. rewrite Hdry in Hrun.
    pose proof (resolve_range_bounds _ _ _ _ Hres) as Hb.
    pose proof (find_from_done _ _ _ _ _ _ _ Hn) as (_ & _ & Hfree & _).
    exists end_file, n. eexists. cbv zeta.
    split; [exact Hend |]. split; [exact Hn |]. split; [exact Hrun |].
    split; [| split; [| split; [| split]]].
    + rewrite <- (copies_names (cwd w)). unfold listdir. apply fmap_app.
    + rewrite length_fmap. unfold mirror_pairs.
      rewrite length_map, length_seq. lia.
    + apply mirror_pairs_NoDup.
    + intros dst. rewrite mirror_pairs_slots, in_map_iff.
      intros (j & <- & Hj%in_seq). apply Hfree. lia.
    + intros j Hj.
      destruct (lookup_lt_is_Some_2 files (Z.to_nat e - 1 - j))
        as [src Hsrc]; [lia |].
      exists src. split; [exact Hsrc |]. split.
      * apply (list_images_isfile (ext_filter_of args)).
        apply list_elem_of_In, list_elem_of_lookup. eauto.
      * rewrite lookup_app_fresh by (apply path_exists_lookup, Hfree; lia).
        apply (lookup_copies _ _ j); [apply mirror_pairs_NoDup |].
        rewrite mirror_pairs_lookup by exact Hj. now rewrite Hsrc.
  - intros Hfiles -> -> Hdry Hfree Hfuel.
    destruct (main_run fuel args w 0 3 Hne Hres) as (end_file & n & Hend & Hn & Hrun);
      [lia | exact Hfuel |].
    fold files in Hend, Hn, Hrun. rewrite Hdry in Hrun.
    rewrite Hfiles in Hend, Hrun. injection Hend as <-.
    change (Py.splitext "d.png") with ("d", ".png") in Hn, Hrun.
    simpl fst in Hn, Hrun. simpl snd in Hn, Hrun.
    assert (Hn1 : n = 1).
    { pose proof (find_from_done _ _ _ _ _ _ _ Hn) as (Hle & _ & _ & Hmin).
      destruct (decide (n = 1)) as [-> | Hne1]; [reflexivity |].
      exfalso. apply (Hmin 1); [lia |]. intros i Hi. apply Hfree.
      change (Z.to_nat (3 - 0)) with 3 in Hi. lia. }
    subst n. eexists. exact Hrun.
Qed.

End MirrorClaims.

Lemma bounce_mirror_witness :
  exists out,
    @Bounce.main ascii_host 13 (by_index 1 4) (fresh four_images)
    = (Bounce.Done tt,
       {| Bounce.cwd :=
            four_images
            ++ [("d_001.png", byte_file Byte.x0c);
                ("d_002.png", byte_file Byte.x0b);
                ("d_003.png", byte_file Byte.x0a)];
          Bounce.stdout := out |}).
Proof.
  destruct (@bounce_mirror ascii_host 13 (by_index 1 4) (fresh four_images)
              0%Z 3%Z) as (_ & _ & _ & Hscene);
    [vm_compute; discriminate | reflexivity |].
  apply Hscene; [reflexivity | reflexivity | reflexivity | reflexivity | | simpl; lia].
  intros i Hi. assert (Hcase : i = 1 \/ i = 2 \/ i = 3) by lia.
  destruct Hcase as [-> | [-> | ->]]; reflexivity.
Defined.

Lemma last_of_four {A} (l1 l2 l3 : list A) (y x : A) :
  last (l1 ++ l2 ++ l3 ++ [y; x]) = Some x.
Proof. rewrite !last_app. reflexivity. Qed.

Section PreviewClaims.
Import Bounce.

(** C9, as stated, fails: after the new entries the preview shows two
    original entries, not three, also when three are there
    ([a.png .. f.png], range 1..2: [e.png] is left out). *)
Lemma preview_stops_after_two :
  @list_images ascii_host None six_images
  = ["a.png"; "b.png"; "c.png"; "d.png"; "e.png"; "f.png"]
  /\ last (stdout (@main ascii_host 7 (by_index 1 2) (fresh six_images)).2)
     = Some (PreviewLine ["a.png"; "b.png"; "b_001.png"; "c.png"; "d.png"])
  /\ window_around 3 (@list_images ascii_host None six_images) 1
       ["b_001.png"]
     = ["a.png"; "b.png"; "b_001.png"; "c.png"; "d.png"; "e.png"]
  /\ last (stdout (@main ascii_host 7 (by_index 1 2) (fresh six_images)).2)
     <> Some (PreviewLine
               (window_around 3 (@list_images ascii_host None six_images) 1
                  ["b_001.png"])).
Proof.
  repeat split; try reflexivity. vm_compute. discriminate.
Qed.

Context `{Host}.

(** C9, amended. After planning [e - s] new files for the range [(s, e)]
    the tool prints, last, a window of the merged order: up to two
    entries before the end frame, the end frame, all new entries, and up
    to two (not three) of the original entries that follow. *)
Theorem preview_window_printed (fuel : nat) (args : Namespace) (w : world)
    (s e : Z) :
  let files := list_images (ext_filter_of args) (cwd w) in
  files <> [] ->
  resolve_range files args = Done (s, e) ->
  s <> e ->
  length (cwd w) * Z.to_nat (e - s) < fuel ->
  exists w' end_file created,
    main fuel args w = (Done tt, w')
    /\ files !! Z.to_nat e = Some end_file
    /\ length created = Z.to_nat (e - s)
    /\ (arg_dry_run args = false ->
        listdir (cwd w') = listdir (cwd w) ++ created)
    /\ last (stdout w')
       = Some (PreviewLine (window_around 2 files (Z.to_nat e) created))
    /\ window_around 2 files (Z.to_nat e) created
       = drop (Z.to_nat e - 2) (take (Z.to_nat e) files)
         ++ end_file :: created
         ++ take 2 (drop (S (Z.to_nat e)) files)
    /\ length (drop (Z.to_nat e - 2) (take (Z.to_nat e) files))
       = Z.to_nat e `min` 2
    /\ length (take 2 (drop (S (Z.to_nat e)) files))
       = 2 `min` (length files - S (Z.to_nat e)).
Proof.
  intros files Hne Hres Hse Hfuel.
  destruct (main_run fuel args w s e Hne Hres Hse Hfuel)
    as (end_file & n & Hend & _ & Hrun).
  fold files in Hend, Hrun. cbv zeta in Hrun.
  pose proof (resolve_range_bounds _ _ _ _ Hres) as Hb. fold files in Hb.
  set (pairs := mirror_pairs files (Py.splitext end_file).1
                  (Py.splitext end_file).2 n s e) in Hrun.
  match type of Hrun with _ = (_, ?w') => exists w' end.
  exists end_file, pairs.*2.
  split; [exact Hrun |]. split; [exact Hend |].
  split; [| split; [| split; [| split; [| split]]]].
  - rewrite length_fmap. unfold pairs, mirror_pairs.
    rewrite length_map, length_seq. reflexivity.
  - intros ->. simpl cwd. rewrite <- (copies_names (cwd w)).
    unfold listdir. apply fmap_app.
  - rewrite <- (preview_window_eq files pairs.*2 e) by lia.
    apply last_of_four.
  - unfold window_around.
    rewrite (take_S_r files (Z.to_nat e) end_file Hend).
    rewrite drop_app_le by (rewrite length_take; lia).
    now rewrite <- app_assoc.
  - rewrite length_drop, length_take. lia.
  - rewrite length_take, length_drop. reflexivity.
Qed.

End PreviewClaims.

Lemma preview_window_printed_witness :
  exists w',
    @Bounce.main ascii_host 7 (by_index 1 2) (fresh six_images)
    = (Bounce.Done tt, w')
    /\ last (Bounce.stdout w')
       = Some (Bounce.PreviewLine
                 ["a.png"; "b.png"; "b_001.png"; "c.png"; "d.png"]).
Proof.
  destruct (@preview_window_printed ascii_host 7 (by_index 1 2)
              (fresh six_images) 0%Z 1%Z)
    as (w' & end_file & created & Hrun & _);
    [vm_compute; discriminate | reflexivity | lia | simpl; lia |].
  exists w'. split; [exact Hrun |].
  vm_compute in Hrun. injection Hrun as <-. reflexivity.
Defined.

(** ** The encoder's options and command line *)

Section EncoderClaims.
Import Cli.
Context `{Host}.

Lemma concat_filters_nonempty (l : list string) (x : ascii) (s : string) :
  String.eqb (String.concat "," (l ++ [String x s])) "" = false.
Proof.
  apply String.eqb_neq. induction l as [|y l IH]; simpl; [discriminate |].
  destruct (l ++ [String x s]) eqn:Hl.
  - now destruct l.
  - destruct y; discriminate.
Qed.

Lemma command_parts (args : Namespace) (ffmpeg concat_path : string) :
  command args ffmpeg concat_path
  = input_options args ffmpeg concat_path ++ codec_options args
    ++ (if tagged args then ["-tag:v"; "hvc1"] else [])
    ++ [Py.str_path (arg_output args)].
Proof.
  unfold command, input_options, codec_options, tagged.
  destruct (quality_defaults args) as [q p]. simpl.
  destruct (arg_size args) as [[w h]|];
    rewrite concat_filters_nonempty; simpl negb; cbv iota;
    destruct (String.eqb (arg_codec args) "prores_ks");
    destruct (_ && _); rewrite <- ?app_assoc; reflexivity.
Qed.

(** C6. With codec [libx264], [--lossless] and no [--crf] the quality is
    0, and the pixel format [yuv444p] unless [--pix-fmt] is given; an
    explicit [--crf] or [--pix-fmt] is the value in effect; without
    [--lossless] the quality defaults to 22 for codecs named [libx265...]
    and to 16 for the others, the pixel format to [yuv420p]; these are
    the values the command line carries. *)
Theorem lossless_defaults (args : Namespace) :
  (arg_codec args = "libx264" -> arg_lossless args = true ->
   arg_crf args = None ->
   (quality_defaults args).1 = Int 0
   /\ (arg_pix_fmt args = None -> (quality_defaults args).2 = "yuv444p"))
  /\ (forall c, arg_crf args = Some c -> (quality_defaults args).1 = Float c)
  /\ (forall p, arg_pix_fmt args = Some p -> (quality_defaults args).2 = p)
  /\ (arg_lossless args = false -> arg_crf args = None ->
      (quality_defaults args).1
      = if Py.startswith "libx265" (arg_codec args) then Int 22 else Int 16)
  /\ (arg_lossless args = false -> arg_pix_fmt args = None ->
      (quality_defaults args).2 = "yuv420p")
  /\ (forall ffmpeg concat_path, arg_codec args <> "prores_ks" ->
      exists pre post,
        command args ffmpeg concat_path
        = pre ++ ["-c:v"; arg_codec args;
                  "-crf"; str_number (quality_defaults args).1;
                  "-preset"; arg_preset args;
                  "-pix_fmt"; (quality_defaults args).2] ++ post).
Proof.
  destruct args as [out fps crf preset pix size codec lossless].
  unfold quality_defaults. simpl.
  split; [| split; [| split; [| split; [| split]]]].
  - intros -> -> ->. simpl. split; [reflexivity |]. now intros ->.
  - intros c ->. simpl. rewrite andb_false_r. reflexivity.
  - intros p ->.
    destruct (lossless && Py.startswith "libx264" codec && _); reflexivity.
  - intros -> ->. reflexivity.
  - intros -> ->. reflexivity.
  - intros ffmpeg concat_path Hcodec. rewrite command_parts.
    exists (input_options
              {| arg_output := out; arg_fps := fps; arg_crf := crf;
                 arg_preset := preset; arg_pix_fmt := pix; arg_size := size;
                 arg_codec := codec; arg_lossless := lossless |}
              ffmpeg concat_path).
    eexists. f_equal. unfold codec_options. simpl arg_codec.
    apply String.eqb_neq in Hcodec. rewrite Hcodec. reflexivity.
Qed.

Lemma tagged_iff (args : Namespace) :
  tagged args = true
  <-> Py.startswith "libx265" (arg_codec args) = true
      /\ lower (Py.suffix (arg_output args)) = ".mp4".
Proof. unfold tagged. now rewrite andb_true_iff, String.eqb_eq. Qed.

Lemma filters_not_tag (size : option (Z * Z)) :
  String.concat ","
    (match size with
     | Some (w, h) => ["scale=" +:+ Py.str_int w +:+ ":-2:flags=lanczos"]
     | None => []
     end ++ ["scale=ceil(iw/2)*2:ceil(ih/2)*2"]) <> "-tag:v".
Proof. destruct size as [[w h]|]; discriminate. Qed.

(** C7. The command line ends in [-tag:v hvc1 <output>] exactly when the
    codec name starts with [libx265] and the lower-cased suffix of the
    output path is [.mp4]; and unless an option value of the caller is
    itself the text [-tag:v], the command line contains [-tag:v] in
    exactly that case. *)
Theorem hvc1_tag_iff (args : Namespace) (ffmpeg concat_path : string) :
  ((exists pre,
      command args ffmpeg concat_path
      = pre ++ ["-tag:v"; "hvc1"; Py.str_path (arg_output args)])
   <-> Py.startswith "libx265" (arg_codec args) = true
       /\ lower (Py.suffix (arg_output args)) = ".mp4")
  /\ (~ In "-tag:v"
         [ffmpeg; concat_path; str_float (arg_fps args); arg_codec args;
          str_number (quality_defaults args).1; arg_preset args;
          (quality_defaults args).2; Py.str_path (arg_output args)] ->
      In "-tag:v" (command args ffmpeg concat_path)
      <-> Py.startswith "libx265" (arg_codec args) = true
          /\ lower (Py.suffix (arg_output args)) = ".mp4").
Proof.
  rewrite <- tagged_iff, command_parts. split.
  - split.
    + intros [pre Hpre]. destruct (tagged args); [reflexivity |].
      exfalso.
      apply (f_equal reverse) in Hpre. rewrite !reverse_app in Hpre.
      unfold codec_options in Hpre.
      destruct (String.eqb (arg_codec args) "prores_ks");
        simpl in Hpre; congruence.
    + intros ->. exists (input_options args ffmpeg concat_path
                          ++ codec_options args).
      now rewrite <- app_assoc.
  - intros Hbenign. split.
    + intros Hin. destruct (tagged args); [reflexivity |].
      exfalso. apply Hbenign. simpl.
      rewrite !in_app_iff in Hin. unfold input_options, codec_options in Hin.
      pose proof (filters_not_tag (arg_size args)) as Hvf.
      destruct (String.eqb (arg_codec args) "prores_ks"); simpl in Hin;
        intuition (try discriminate; try congruence; auto).
    + intros ->. rewrite !in_app_iff. right. right. left. now left.
Qed.

End EncoderClaims.

(** ** The manifest *)

Lemma split_on_plain (c : ascii) (a : string) :
  ~ In c (list_ascii_of_string a) -> Driver.split_on c a = [a].
Proof.
  induction a as [|x a IH]; intros Hno; [reflexivity |].
  simpl in *. rewrite IH by tauto.
  destruct (Ascii.eqb_spec x c) as [-> | _]; [tauto | reflexivity].
Qed.

Lemma split_on_sep (c : ascii) (a b : string) :
  ~ In c (list_ascii_of_string a) ->
  Driver.split_on c (a +:+ String c b) = a :: Driver.split_on c b.
Proof.
  induction a as [|x a IH]; intros Hno.
  - rewrite str_app_empty_l. simpl. rewrite Ascii.eqb_refl.
    now destruct (Driver.split_on c b).
  - rewrite str_app_String. simpl in *. rewrite IH by tauto.
    destruct (Ascii.eqb_spec x c) as [-> | _]; [tauto | reflexivity].
Qed.

Section ManifestClaims.
Import Cli.
Context `{Host} `{Disk}.

Lemma concat_loop_spec (n : nat) (fps d : float) (init : list Py.Path)
    (last : Py.Path) (i : nat) (lines : list string) :
  one_over fps = Some d -> n = i + S (length init) ->
  concat_loop n fps i (init ++ [last]) lines
  = inr (lines ++ flat_map (fun p => [file_line p; duration_line d]) init
         ++ [file_line last]).
Proof.
  intros Hd. revert i lines.
  induction init as [|p init IH]; intros i lines Hn; simpl in Hn; simpl.
  - destruct (Z.ltb_spec (Z.of_nat i) (Z.of_nat n - 1)); [lia | reflexivity].
  - destruct (Z.ltb_spec (Z.of_nat i) (Z.of_nat n - 1)); [| lia].
    rewrite Hd, IH by lia.
    unfold duration_line. now rewrite <- !app_assoc.
Qed.

Lemma index_last {A} (init : list A) (last : A) :
  Py.index (init ++ [last]) (-1) = Some last.
Proof.
  unfold Py.index. simpl Z.leb. cbv iota.
  rewrite length_app. simpl length.
  destruct (Z.leb_spec (- Z.of_nat (length init + 1)) (-1)); [| lia].
  replace (Z.to_nat (Z.of_nat (length init + 1) + -1)) with (length init)
    by lia.
  now apply list_lookup_middle.
Qed.

Lemma escape_app (a b : string) :
  _escape_single_quotes (a +:+ b)
  = _escape_single_quotes a +:+ _escape_single_quotes b.
Proof.
  unfold _escape_single_quotes.
  induction a as [|c a IH]; [reflexivity |].
  rewrite str_app_String. simpl. rewrite IH.
  destruct (Ascii.eqb c "'"); [| reflexivity].
  now rewrite str_app_assoc.
Qed.

Lemma startswith_app (p s : string) : Py.startswith p (p +:+ s) = true.
Proof.
  unfold Py.startswith. induction p as [|c p IH].
  - now destruct s.
  - rewrite str_app_String. simpl.
    destruct (ascii_dec c c); [exact IH | congruence].
Qed.

Lemma manifest_text_spec (fps d : float) (init : list Py.Path)
    (last : Py.Path) :
  one_over fps = Some d ->
  manifest_text (init ++ [last]) fps
  = inr (Py.join_lines
           (flat_map (fun p => [file_line p; duration_line d]) init
            ++ [file_line last; file_line last])).
Proof.
  intros Hd. unfold manifest_text.
  rewrite (concat_loop_spec _ fps d init last 0 [] Hd)
    by (rewrite length_app; simpl; lia).
  rewrite index_last. simpl app at 1. rewrite <- app_assoc. reflexivity.
Qed.

Lemma escape_chars (c : ascii) (s : string) :
  In c (list_ascii_of_string (_escape_single_quotes s)) ->
  In c (list_ascii_of_string s) \/ c = "'"%char \/ c = "\"%char.
Proof.
  unfold _escape_single_quotes.
  induction s as [|x s IH]; simpl; [tauto |].
  destruct (Ascii.eqb_spec x "'") as [-> | _]; simpl.
  - intros [<- | [<- | [<- | [<- | Hin]]]]; auto.
    destruct (IH Hin) as [? | ?]; auto.
  - intros [<- | Hin]; auto. destruct (IH Hin) as [? | ?]; auto.
Qed.

Lemma chars_app (a b : string) :
  list_ascii_of_string (a +:+ b)
  = list_ascii_of_string a ++ list_ascii_of_string b.
Proof.
  induction a as [|x a IH]; [now rewrite str_app_empty_l |].
  rewrite str_app_String. simpl. now rewrite IH.
Qed.

(** A text made of lines that each end in [c] splits at [c] into the
    lines without their ends, and an empty rest. *)
Lemma split_on_lines (c : ascii) (entries : list string) :
  Forall (fun e => ~ In c (list_ascii_of_string e)) entries ->
  Driver.split_on c
    (Py.join_lines (map (fun e => e +:+ String c EmptyString) entries))
  = entries ++ [EmptyString].
Proof.
  unfold Py.join_lines. induction 1 as [|e entries He _ IH]; [reflexivity |].
  simpl map. rewrite concat_empty_cons, str_app_assoc, str_app_String,
    str_app_empty_l.
  rewrite split_on_sep by exact He. now rewrite IH.
Qed.

(** C2. For a non-empty list of images and a frame rate whose inverse
    [d] exists, the text of the manifest has, per image in order, the line
    [file '<escaped path>'], followed by the line [duration <d>] for every
    image but the last, and then the last image's [file] line once more,
    with no [duration] line after it.  Every line ends in one line feed
    (character 10): split at the line feeds, the text is these lines and
    an empty rest, when no path and no number holds a line feed itself.
    The text starts with [file '], so with no byte-order mark.  It is
    handed to [write_text] for [concat_path]: the manifest holds exactly
    this text when the write succeeds, and the call fails with the
    exception of the write otherwise.  Escaping replaces each single
    quote of a path by the four characters ['\''] and leaves the other
    characters alone. *)
Theorem manifest_format (imgs : list Py.Path) (fps d : float)
    (concat_path : string) :
  imgs <> [] -> one_over fps = Some d ->
  exists init last text,
    imgs = init ++ [last]
    /\ text
       = Py.join_lines
           (flat_map (fun p => [file_line p; duration_line d]) init
            ++ [file_line last; file_line last])
    /\ build_concat_file imgs fps concat_path
       = match write_text concat_path text with
         | Some e => inl (WriteError e)
         | None => inr text
         end
    /\ nl = String (ascii_of_nat 10) EmptyString
    /\ (forall p, file_line p
          = "file '" +:+ _escape_single_quotes (resolve_as_posix p)
            +:+ "'" +:+ String (ascii_of_nat 10) EmptyString)
    /\ duration_line d
       = "duration " +:+ str_float d +:+ String (ascii_of_nat 10) EmptyString
    /\ ((forall p, In p imgs ->
           ~ In (ascii_of_nat 10) (list_ascii_of_string (resolve_as_posix p)))
        -> ~ In (ascii_of_nat 10) (list_ascii_of_string (str_float d))
        -> Driver.split_on (ascii_of_nat 10) text
           = flat_map (fun p => [file_entry p; "duration " +:+ str_float d])
               init
             ++ [file_entry last; file_entry last; EmptyString])
    /\ Py.startswith "file '" text = true
    /\ Py.startswith bom text = false
    /\ (forall a b, _escape_single_quotes (a +:+ b)
          = _escape_single_quotes a +:+ _escape_single_quotes b)
    /\ _escape_single_quotes "'" = "'\''"
    /\ (forall c, c <> "'"%char ->
          _escape_single_quotes (String c EmptyString) = String c EmptyString).
Proof.
  intros Hne Hd. destruct imgs as [|last init _] using rev_ind; [congruence |].
  exists init, last. eexists. split; [reflexivity |].
  split; [reflexivity |].
  split; [unfold build_concat_file;
          now rewrite (manifest_text_spec fps d init last Hd) |].
  split; [reflexivity |]. split; [reflexivity |]. split; [reflexivity |].
  split; [| split; [| split; [| split; [exact escape_app
                                       | split; [reflexivity |]]]]].
  - intros Hpaths Hnum.
    assert (Hentry : forall p, In p (init ++ [last]) ->
              ~ In (ascii_of_nat 10) (list_ascii_of_string (file_entry p))).
    { intros p Hp. unfold file_entry. rewrite !chars_app, !in_app_iff.
      intros [Hin | [Hin | Hin]].
      - simpl in Hin. intuition discriminate.
      - apply escape_chars in Hin as [Hin | [Hin | Hin]];
          [now apply (Hpaths p) | discriminate | discriminate].
      - simpl in Hin. intuition discriminate. }
    assert (Hdur : ~ In (ascii_of_nat 10)
                     (list_ascii_of_string ("duration " +:+ str_float d))).
    { rewrite chars_app, in_app_iff. intros [Hin | Hin]; [| tauto].
      simpl in Hin. intuition discriminate. }
    replace (flat_map (fun p => [file_line p; duration_line d]) init
             ++ [file_line last; file_line last])
      with (map (fun e => e +:+ String (ascii_of_nat 10) EmptyString)
              (flat_map (fun p => [file_entry p; "duration " +:+ str_float d])
                 init
               ++ [file_entry last; file_entry last])).
    + rewrite split_on_lines; [now rewrite <- app_assoc |].
      apply Forall_app. split.
      * apply List.Forall_forall. intros e He.
        apply in_flat_map in He as (p & Hp & [<- | [<- | []]]);
          [apply Hentry, in_app_iff; now left | exact Hdur].
      * repeat constructor; apply Hentry, in_app_iff; right; now left.
    + rewrite map_app. f_equal.
      * clear. induction init as [|p init IH]; [reflexivity |].
        simpl. rewrite IH. unfold file_line, file_entry, duration_line.
        now rewrite !str_app_assoc.
      * simpl. unfold file_line, file_entry. now rewrite !str_app_assoc.
  - unfold Py.join_lines. destruct init as [|p init]; simpl flat_map;
      simpl app; rewrite concat_empty_cons; unfold file_line;
      rewrite str_app_assoc; apply startswith_app.
  - unfold Py.join_lines. destruct init as [|p init]; simpl flat_map;
      simpl app; rewrite concat_empty_cons; unfold file_line; reflexivity.
  - intros c Hc. unfold _escape_single_quotes. simpl.
    apply Ascii.eqb_neq in Hc. now rewrite Hc.
Qed.

End ManifestClaims.

Lemma manifest_format_witness :
  @Cli.build_concat_file ascii_host sample_disk [["a.png"]; ["it's.png"]]
    (16 # 1)%Q "/tmp/td/list.txt"
  = inr "file '/a.png'
duration 0.0625
file '/it'\''s.png'
file '/it'\''s.png'
".
Proof.
  destruct (@manifest_format ascii_host sample_disk [["a.png"]; ["it's.png"]]
              (16 # 1)%Q (1 # 16)%Q "/tmp/td/list.txt")
    as (init & last & text & _ & _ & Hrun & _); [discriminate | reflexivity |].
  rewrite Hrun. vm_compute in Hrun. injection Hrun as <-. reflexivity.
Defined.

(** ** Enumeration of the images *)

Section EnumerationClaims.
Context `{Host}.

Lemma accepted_effective (flt : option (gset string)) (ext : string) :
  Bounce.accepted flt ext = true <-> ext ∈ effective_exts flt.
Proof.
  unfold Bounce.accepted, effective_exts.
  destruct flt as [X|]; [destruct (bool_decide (X = ∅)) |];
    apply bool_decide_eq_true.
Qed.

Lemma filter_none {A} (ok : A -> bool) (l : list A) :
  (forall a, In a l -> ok a = false) -> List.filter ok l = [].
Proof.
  induction l as [|a l IH]; intros Hno; [reflexivity |]. simpl.
  rewrite (Hno a) by now left. apply IH. intros b Hb. apply Hno. now right.
Qed.

(** C8. Both enumerators return exactly the enumerated entries that are
    regular files with an accepted extension (lower-cased, compared
    without its dot), in ascending order of the case-folded file name,
    entries with one key in the order of enumeration; the result depends
    only on what the directory enumerates and which entries are files,
    so the same contents give the same sequence; and when nothing matches
    the result is the empty list, not an error. *)
Theorem enumeration_filtered_sorted :
  (forall (folder : directory) (recursive : bool) (exts : list string),
     let X : gset string :=
       list_to_set (map (fun e => Py.lstrip_dot (lower e)) exts) in
     let key := fun p : Py.Path => lower (Py.name p) in
     let ok := fun p : Py.Path =>
       is_file folder p
       && bool_decide (Py.lstrip_dot (lower (Py.suffix p)) ∈ X) in
     let r := Cli.collect_images folder recursive exts in
     (forall p, In p r <->
        In p (glob recursive folder) /\ is_file folder p = true
        /\ Py.lstrip_dot (lower (Py.suffix p)) ∈ X)
     /\ StronglySorted (key_le key) r
     /\ Permutation r (List.filter ok (glob recursive folder))
     /\ (forall c,
           List.filter (fun p => String.eqb (key p) c) r
           = List.filter (fun p => String.eqb (key p) c)
               (List.filter ok (glob recursive folder)))
     /\ (forall folder',
           glob recursive folder' = glob recursive folder ->
           (forall p, is_file folder' p = is_file folder p) ->
           Cli.collect_images folder' recursive exts = r)
     /\ ((forall p, In p (glob recursive folder) -> ok p = false) -> r = []))
  /\ (forall (d : directory) (flt : option (gset string)),
     let ext_of := fun f : string => lower (Py.splitext f).2 in
     let ok := fun f : string =>
       isfile d f && Bounce.accepted flt (ext_of f) in
     let r := Bounce.list_images flt d in
     (forall f, In f r <->
        In f (listdir d) /\ isfile d f = true
        /\ ext_of f ∈ effective_exts flt)
     /\ (forall f, In f r ->
           Py.lstrip_dot (ext_of f)
           ∈ (set_map Py.lstrip_dot (effective_exts flt) : gset string))
     /\ StronglySorted (key_le casefold) r
     /\ Permutation r (List.filter ok (listdir d))
     /\ (forall c,
           List.filter (fun f => String.eqb (casefold f) c) r
           = List.filter (fun f => String.eqb (casefold f) c)
               (List.filter ok (listdir d)))
     /\ (forall d',
           listdir d' = listdir d ->
           (forall f, isfile d' f = isfile d f) ->
           Bounce.list_images flt d' = r)
     /\ ((forall f, In f (listdir d) -> ok f = false) -> r = [])).
Proof.
  split.
  - intros folder recursive exts X key ok r. unfold r, Cli.collect_images.
    fold X. fold ok. fold key.
    split; [| split; [| split; [| split; [| split]]]].
    + intros p. rewrite sort_by_In, filter_In. unfold ok.
      rewrite andb_true_iff, bool_decide_eq_true. reflexivity.
    + apply sort_by_strongly_sorted.
    + apply sort_by_perm.
    + intros c. apply sort_by_stable.
    + intros folder' Hglob Hfile. rewrite Hglob. f_equal.
      apply List.filter_ext. intros p. now rewrite Hfile.
    + intros Hno. now rewrite filter_none.
  - intros d flt ext_of ok r. unfold r, Bounce.list_images.
    fold ext_of. fold ok.
    assert (Hin : forall f,
              In f (Py.sort_by casefold (List.filter ok (listdir d))) <->
              In f (listdir d) /\ isfile d f = true
              /\ ext_of f ∈ effective_exts flt).
    { intros f. rewrite sort_by_In, filter_In. unfold ok.
      now rewrite andb_true_iff, accepted_effective. }
    split; [exact Hin |].
    split; [| split; [| split; [| split; [| split]]]].
    + intros f (_ & _ & Hext)%Hin. apply elem_of_map. eauto.
    + apply sort_by_strongly_sorted.
    + apply sort_by_perm.
    + intros c. apply sort_by_stable.
    + intros d' Hdir Hfile. rewrite Hdir. f_equal.
      apply List.filter_ext. intros f. now rewrite Hfile.
    + intros Hno. now rewrite filter_none.
Qed.

End EnumerationClaims.

(** * Further properties of the bounce tool *)

Section BounceRuns.
Import Bounce.
Context `{Host}.

(** The run on a range with something to duplicate, from the block the
    allocator returned. *)
Lemma main_run_from (fuel : nat) (args : Namespace) (w : world) (s e : Z)
    (end_file : string) (n : nat) :
  let files := list_images (ext_filter_of args) (cwd w) in
  files <> [] ->
  resolve_range files args = Done (s, e) ->
  s <> e ->
  files !! Z.to_nat e = Some end_file ->
  find_free_block_from fuel (cwd w) (Py.splitext end_file).1
    (Py.splitext end_file).2 (Z.to_nat (e - s)) 1 = Done n ->
  let pairs :=
    mirror_pairs files (Py.splitext end_file).1 (Py.splitext end_file).2
      n s e in
  main fuel args w
  = (Done tt,
     {| cwd := if arg_dry_run args then cwd w
               else cwd w ++ copies (cwd w) pairs;
        stdout :=
          stdout w
          ++ [InfoTotal (length files); InfoRange (s + 1) (e + 1);
              InfoEndFile end_file; InfoPlanned (Z.to_nat (e - s))]
          ++ map (fun p => if arg_dry_run args then DryLine p.1 p.2
                           else CopyLine p.1 p.2) pairs
          ++ [PreviewHeader;
              PreviewLine (preview_window files e pairs.*2)] |}).
Proof.
  intros files Hne Hres Hse Hend Hn pairs.
  pose proof (resolve_range_bounds _ _ _ _ Hres) as Hb.
  unfold main. fold files.
  unfold mbind at 1, M_bind, get_cwd. cbv beta iota. fold files.
  rewrite bool_decide_eq_false_2 by exact Hne.
  unfold mbind at 1, M_bind, lift. rewrite Hres. cbv beta iota.
  rewrite bool_decide_eq_false_2.
  2:{ intros Hnil. apply (f_equal length) in Hnil.
      rewrite range_down_length in Hnil. simpl in Hnil. lia. }
  unfold mbind at 1, M_bind. rewrite index_nonneg by lia. rewrite Hend.
  simpl from_index. cbv beta iota.
  destruct (Py.splitext end_file) as [end_stem end_ext] eqn:Hsplit.
  simpl in Hn, pairs.
  unfold mbind at 1, M_bind, find_free_block.
  rewrite range_down_length.
  replace (Z.to_nat (e - 1 - (s - 1))) with (Z.to_nat (e - s)) by lia.
  rewrite Hn. cbv beta iota. unfold print, mbind, M_bind. simpl cwd. simpl stdout.
  assert (Hsrc : forall i, In i (Py.range_down (e - 1) (s - 1)) ->
            exists f, Py.index files i = Some f
                      /\ dir_lookup f (cwd w)
                         = Some (File (file_data (cwd w) f))).
  { intros i Hi%range_down_In. rewrite index_nonneg by lia.
    destruct (lookup_lt_is_Some_2 files (Z.to_nat i)) as [f Hf]; [lia |].
    exists f. split; [exact Hf |].
    apply isfile_lookup, (list_images_isfile (ext_filter_of args)).
    apply list_elem_of_In, list_elem_of_lookup. eauto. }
  destruct (arg_dry_run args).
  - rewrite copy_frames_dry by (intros i Hi; destruct (Hsrc i Hi) as (f & -> & _); eauto).
    rewrite planned_range_down by lia. fold pairs.
    simpl. rewrite <- !app_assoc. reflexivity.
  - rewrite (copy_frames_run _ _ _ (cwd w)).
    + rewrite planned_range_down by lia. fold pairs.
      simpl. rewrite <- !app_assoc. reflexivity.
    + exact Hsrc.
    + simpl cwd. rewrite range_down_length.
      replace (Z.to_nat (e - 1 - (s - 1))) with (Z.to_nat (e - s)) by lia.
      intros j Hj.
      now apply (find_from_done _ _ _ _ _ _ _ Hn).
Qed.

(** When the allocator runs out of rounds, so does the run, before it
    prints or copies anything. *)
Lemma main_out_of_fuel (fuel : nat) (args : Namespace) (w : world) (s e : Z)
    (end_file : string) :
  let files := list_images (ext_filter_of args) (cwd w) in
  files <> [] ->
  resolve_range files args = Done (s, e) ->
  s <> e ->
  files !! Z.to_nat e = Some end_file ->
  find_free_block_from fuel (cwd w) (Py.splitext end_file).1
    (Py.splitext end_file).2 (Z.to_nat (e - s)) 1 = OutOfFuel ->
  main fuel args w = (OutOfFuel, w).
Proof.
  intros files Hne Hres Hse Hend Hn.
  pose proof (resolve_range_bounds _ _ _ _ Hres) as Hb.
  unfold main. fold files.
  unfold mbind at 1, M_bind, get_cwd. cbv beta iota. fold files.
  rewrite bool_decide_eq_false_2 by exact Hne.
  unfold mbind at 1, M_bind, lift. rewrite Hres. cbv beta iota.
  rewrite bool_decide_eq_false_2.
  2:{ intros Hnil. apply (f_equal length) in Hnil.
      rewrite range_down_length in Hnil. simpl in Hnil. lia. }
  unfold mbind at 1, M_bind. rewrite index_nonneg by lia. rewrite Hend.
  simpl from_index. cbv beta iota.
  destruct (Py.splitext end_file) as [end_stem end_ext] eqn:Hsplit.
  simpl in Hn.
  unfold mbind at 1, M_bind, find_free_block.
  rewrite range_down_length.
  replace (Z.to_nat (e - 1 - (s - 1))) with (Z.to_nat (e - s)) by lia.
  now rewrite Hn.
Qed.

Lemma main_empty (fuel : nat) (args : Namespace) (w : world) :
  list_images (ext_filter_of args) (cwd w) = [] ->
  main fuel args w = (Exit NoImagesFound, w).
Proof.
  intros Hnil. unfold main.
  unfold mbind at 1, M_bind, get_cwd. cbv beta iota.
  now rewrite bool_decide_eq_true_2 by exact Hnil.
Qed.

Lemma resolve_range_errors (files : list string) (args : Namespace)
    (err : error) :
  resolve_range files args = Exit err ->
  err = NamesTogether \/ err = IndexTogether \/ err = InvalidRange
  \/ (exists nm, err = NameNotFound nm /\ ~ In nm files
                 /\ (arg_from_name args = Some nm
                     \/ arg_to_name args = Some nm)).
Proof.
  unfold resolve_range, index_from_name.
  destruct args as [[a|] [b|] [f|] [t|] ex dr]; simpl;
    repeat match goal with
    | |- context [String.eqb ?x ""] => destruct (String.eqb x ""); simpl
    | |- context [Py.list_index ?x ?l] =>
        let E := fresh "E" in
        destruct (Py.list_index x l) eqn:E; simpl;
        [| apply list_index_None in E]
    | |- context [(?x <? ?y)%Z] => destruct (x <? y)%Z; simpl
    | |- context [(?x <=? ?y)%Z] => destruct (x <=? y)%Z; simpl
    end; intros [= <-]; eauto 10.
Qed.

(** The five ways a run of [main] goes. *)
Lemma main_cases (fuel : nat) (args : Namespace) (w : world) :
  let files := list_images (ext_filter_of args) (cwd w) in
  (files = [] /\ main fuel args w = (Exit NoImagesFound, w))
  \/ (files <> [] /\ exists err,
        resolve_range files args = Exit err
        /\ main fuel args w = (Exit err, w))
  \/ (files <> [] /\ exists s,
        resolve_range files args = Done (s, s)
        /\ main fuel args w
           = (Done tt, {| cwd := cwd w;
                          stdout := stdout w ++ [NothingToDuplicate] |}))
  \/ (files <> [] /\ exists s e end_file,
        resolve_range files args = Done (s, e) /\ s <> e
        /\ files !! Z.to_nat e = Some end_file
        /\ find_free_block_from fuel (cwd w) (Py.splitext end_file).1
             (Py.splitext end_file).2 (Z.to_nat (e - s)) 1 = OutOfFuel
        /\ main fuel args w = (OutOfFuel, w))
  \/ (files <> [] /\ exists s e end_file n,
        resolve_range files args = Done (s, e) /\ s <> e
        /\ files !! Z.to_nat e = Some end_file
        /\ find_free_block_from fuel (cwd w) (Py.splitext end_file).1
             (Py.splitext end_file).2 (Z.to_nat (e - s)) 1 = Done n
        /\ main fuel args w
           = (Done tt,
              {| cwd := if arg_dry_run args then cwd w
                        else cwd w
                             ++ copies (cwd w)
                                  (mirror_pairs files (Py.splitext end_file).1
                                     (Py.splitext end_file).2 n s e);
                 stdout :=
                   stdout w
                   ++ [InfoTotal (length files); InfoRange (s + 1) (e + 1);
                       InfoEndFile end_file; InfoPlanned (Z.to_nat (e - s))]
                   ++ map (fun p => if arg_dry_run args then DryLine p.1 p.2
                                    else CopyLine p.1 p.2)
                        (mirror_pairs files (Py.splitext end_file).1
                           (Py.splitext end_file).2 n s e)
                   ++ [PreviewHeader;
                       PreviewLine
                         (preview_window files e
                            (mirror_pairs files (Py.splitext end_file).1
                               (Py.splitext end_file).2 n s e).*2)] |})).
Proof.
  intros files.
  destruct (decide (files = [])) as [Hnil | Hne].
  { left. split; [exact Hnil | now apply main_empty]. }
  right. destruct (resolve_range files args) as [[s e] | err |] eqn:Hres.
  - destruct (decide (s = e)) as [<- | Hse].
    + right. left. split; [exact Hne |]. exists s. split; [reflexivity |].
      now apply (main_nothing fuel args w s).
    + pose proof (resolve_range_bounds _ _ _ _ Hres) as Hb.
      destruct (lookup_lt_is_Some_2 files (Z.to_nat e)) as [end_file Hend];
        [lia |].
      destruct (find_free_block_from fuel (cwd w) (Py.splitext end_file).1
                  (Py.splitext end_file).2 (Z.to_nat (e - s)) 1)
        as [n | err |] eqn:Hn.
      * right. right. right. split; [exact Hne |].
        exists s, e, end_file, n. repeat split; try assumption.
        now apply main_run_from.
      * now apply find_from_no_exit in Hn.
      * right. right. left. split; [exact Hne |].
        exists s, e, end_file. repeat split; try assumption.
        now apply (main_out_of_fuel fuel args w s e end_file).
  - left. split; [exact Hne |]. exists err. split; [reflexivity |].
    now apply main_rejects.
  - now apply resolve_range_no_fuel in Hres.
Qed.

End BounceRuns.

Section BounceSafety.
Import Bounce.
Context `{Host}.

(** X1. The run ends with the no-images exit exactly when no entry of the
    current directory is a regular file with an accepted extension, and
    then nothing is printed or copied. *)
Theorem bounce_no_images_iff (fuel : nat) (args : Namespace) (w : world) :
  let files := list_images (ext_filter_of args) (cwd w) in
  ((main fuel args w).1 = Exit NoImagesFound <-> files = [])
  /\ (files = [] -> main fuel args w = (Exit NoImagesFound, w))
  /\ (files = [] <->
      forall f, In f (listdir (cwd w)) ->
        isfile (cwd w) f = false
        \/ lower (Py.splitext f).2 ∉ effective_exts (ext_filter_of args)).
Proof.
  intros files. split; [| split].
  - split; [| intros Hnil; now rewrite main_empty].
    destruct (main_cases fuel args w)
      as [[Hnil _] | [[_ (err & Hres & Hrun)] | [[_ (s & _ & Hrun)]
         | [[_ (s & e & f & _ & _ & _ & _ & Hrun)]
           | [_ (s & e & f & n & _ & _ & _ & _ & Hrun)]]]]];
      rewrite ?Hrun; simpl; try discriminate; [now intros _ |].
    intros [= ->]. apply resolve_range_errors in Hres.
    destruct Hres as [? | [? | [? | (nm & ? & _)]]]; discriminate.
  - apply main_empty.
  - unfold files, list_images. split.
    + intros Hnil f Hf.
      destruct (isfile (cwd w) f) eqn:Hfile; [right | now left].
      intros Hext%accepted_effective.
      assert (Hin : In f (Py.sort_by casefold
                (List.filter
                   (fun f => isfile (cwd w) f
                             && accepted (ext_filter_of args)
                                  (lower (Py.splitext f).2))
                   (listdir (cwd w))))).
      { apply sort_by_In, filter_In. split; [exact Hf |].
        now rewrite Hfile, Hext. }
      rewrite Hnil in Hin. destruct Hin.
    + intros Hno. rewrite filter_none; [reflexivity |].
      intros f Hf. destruct (Hno f Hf) as [-> | Hext]; [reflexivity |].
      apply andb_false_iff. right. apply not_true_is_false.
      now rewrite accepted_effective.
Qed.

End BounceSafety.

(** ** Runs on a system that can refuse a copy *)

Section FaultyRuns.
Import Bounce.
Context `{Host} `{BounceOS.CopyFaults}.










End FaultyRuns.




Section FaultySafety.
Import Bounce.
Context `{Host} `{BounceOS.CopyFaults}.

(** The tool on a system that refuses no copy is the tool of [Bounce]. *)
Lemma os_main_no_faults (fuel : nat) (args : Namespace) :
  @BounceOS.main _ no_faults fuel args = Bounce.main fuel args.
Proof. reflexivity. Qed.



End FaultySafety.


Ltac bounds_cases :=
  repeat match goal with
  | |- context [(?x <? ?y)%Z] => destruct (Z.ltb_spec x y); simpl
  | |- context [(?x <=? ?y)%Z] => destruct (Z.leb_spec x y); simpl
  | |- context [bool_decide ?P] => destruct (bool_decide_reflect P); simpl
  end; first [reflexivity | lia].

Section RangeExtras.
Import Bounce.

Lemma list_index_NoDup (files : list string) (i : nat) (f : string) :
  NoDup files -> files !! i = Some f -> Py.list_index f files = Some i.
Proof.
  intros Hnd Hi. apply list_index_lookup. split; [exact Hi |].
  intros j Hj Hjf. pose proof (NoDup_lookup _ _ _ _ Hnd Hi Hjf). lia.
Qed.

(** X4. When the image names are distinct, naming the images at the
    1-based positions [i + 1] and [j + 1] selects the same range as
    giving those positions: both resolve to [(i, j)] when [i <= j] and are
    rejected as an invalid range otherwise. *)
Theorem names_and_indices_agree (files : list string) (i j : nat)
    (f t : string) :
  NoDup files ->
  files !! i = Some f -> files !! j = Some t ->
  f <> EmptyString -> t <> EmptyString ->
  resolve_range files (by_name f t)
  = resolve_range files (by_index (Z.of_nat i + 1) (Z.of_nat j + 1))
  /\ resolve_range files (by_name f t)
     = if bool_decide (i <= j) then Done (Z.of_nat i, Z.of_nat j)
       else Exit InvalidRange.
Proof.
  intros Hnd Hi Hj Hf Ht.
  pose proof (lookup_lt_Some _ _ _ Hi). pose proof (lookup_lt_Some _ _ _ Hj).
  unfold resolve_range, index_from_name. simpl.
  apply String.eqb_neq in Hf, Ht. rewrite Hf, Ht. simpl.
  rewrite (list_index_NoDup files i f Hnd Hi),
    (list_index_NoDup files j t Hnd Hj). simpl.
  replace (Z.of_nat i + 1 - 1)%Z with (Z.of_nat i) by lia.
  replace (Z.of_nat j + 1 - 1)%Z with (Z.of_nat j) by lia.
  split; [reflexivity |]. bounds_cases.
Qed.

Lemma names_and_indices_agree_witness :
  resolve_range ["a.png"; "b.png"; "c.png"] (by_name "a.png" "c.png")
  = resolve_range ["a.png"; "b.png"; "c.png"] (by_index 1 3).
Proof.
  apply (names_and_indices_agree ["a.png"; "b.png"; "c.png"] 0 2
           "a.png" "c.png");
    [| reflexivity | reflexivity | discriminate | discriminate].
  repeat (apply NoDup_cons; split;
          [rewrite !list_elem_of_In; simpl; intuition discriminate |]).
  apply NoDup_nil. trivial.
Defined.

(** X5. Why range resolution fails: a name-not-found exit names a
    supplied file name that is not in the list; the two "together" exits
    mean an incomplete (or empty-named) pair of names, resp. no names and
    exactly one index; everything else is the invalid-range exit, and
    no other exit or exception comes out of it. *)
Theorem resolve_range_failures (files : list string) (args : Namespace)
    (err : error) :
  resolve_range files args = Exit err ->
  (err = NamesTogether
   /\ (is_Some (arg_from_name args) \/ is_Some (arg_to_name args))
   /\ (truthy (arg_from_name args) = false
       \/ truthy (arg_to_name args) = false))
  \/ (err = IndexTogether
      /\ arg_from_name args = None /\ arg_to_name args = None
      /\ (is_Some (arg_start args) /\ arg_end args = None
          \/ arg_start args = None /\ is_Some (arg_end args)))
  \/ err = InvalidRange
  \/ (exists nm, err = NameNotFound nm /\ ~ In nm files
                 /\ (arg_from_name args = Some nm
                     \/ arg_to_name args = Some nm)).
Proof.
  unfold resolve_range, index_from_name.
  destruct args as [[a|] [b|] [f|] [t|] ex dr]; simpl;
    repeat match goal with
    | |- context [String.eqb ?x ""] => destruct (String.eqb x ""); simpl
    | |- context [Py.list_index ?x ?l] =>
        let E := fresh "E" in
        destruct (Py.list_index x l) eqn:E; simpl;
        [| apply list_index_None in E]
    | |- context [(?x <? ?y)%Z] => destruct (x <? y)%Z; simpl
    | |- context [(?x <=? ?y)%Z] => destruct (x <=? y)%Z; simpl
    end; intros [= <-]; eauto 12.
Qed.

Lemma resolve_range_failures_witness :
  exists nm, resolve_range ["a.png"] (by_name "a.png" "z.png")
             = Exit (NameNotFound nm) /\ ~ In nm ["a.png"].
Proof.
  destruct (resolve_range_failures ["a.png"] (by_name "a.png" "z.png")
              (NameNotFound "z.png") eq_refl)
    as [[? _] | [[? _] | [? | (nm & Herr & Hno & _)]]]; try discriminate.
  exists nm. injection Herr as <-. split; [reflexivity | exact Hno].
Defined.

(** X6. On an empty list of images every combination of bounds is
    rejected; [main] therefore tests for an empty list first. *)
Theorem resolve_range_empty (args : Namespace) :
  exists err, resolve_range [] args = Exit err.
Proof.
  destruct (resolve_range [] args) as [[s e] | err |] eqn:Hres.
  - apply resolve_range_bounds in Hres. simpl in Hres. lia.
  - eauto.
  - now apply resolve_range_no_fuel in Hres.
Qed.

End RangeExtras.

Section AllocatorExtras.
Import Bounce.

(** X7. Allocations do not overlap: once the block the allocator
    returned has been filled, and whatever else has been added to the
    directory, a further request of the same size for the same stem and
    extension returns a start beyond that block. *)
Theorem next_block_after (d d' : directory) (end_stem end_ext : string)
    (count fuel fuel' n m : nat) :
  1 <= count ->
  find_free_block_from fuel d end_stem end_ext count 1 = Done n ->
  (forall p, path_exists d p = true -> path_exists d' p = true) ->
  (forall i, n <= i < n + count ->
     path_exists d' (candidate end_stem end_ext i) = true) ->
  find_free_block_from fuel' d' end_stem end_ext count 1 = Done m ->
  n + count <= m.
Proof.
  intros Hk (_ & _ & _ & Hmin)%find_from_done Hkeep Hfull
         (Hle & _ & Hfree & _)%find_from_done.
  destruct (Nat.le_gt_cases (n + count) m) as [? | Hlt]; [assumption |].
  exfalso. destruct (Nat.le_gt_cases n m) as [Hnm | Hmn].
  - specialize (Hfull m ltac:(lia)). rewrite Hfree in Hfull by lia.
    discriminate.
  - destruct (block_collision d end_stem end_ext count m) as (i & Hi & Hex).
    { apply Hmin. lia. }
    apply Hkeep in Hex. rewrite Hfree in Hex by lia. discriminate.
Qed.

Lemma next_block_after_witness :
  1 + 3
  <= match find_free_block_from 9
             (four_images
              ++ copies four_images
                   [("c.png", "d_001.png"); ("b.png", "d_002.png");
                    ("a.png", "d_003.png")])
             "d" ".png" 3 1 with
     | Done m => m
     | _ => 0
     end.
Proof.
  apply (next_block_after four_images
           (four_images
            ++ copies four_images
                 [("c.png", "d_001.png"); ("b.png", "d_002.png");
                  ("a.png", "d_003.png")])
           "d" ".png" 3 9 9 1);
    [lia | reflexivity | | | reflexivity].
  - intros p Hp. unfold path_exists in *.
    destruct (dir_lookup p four_images) as [v|] eqn:Hv; [| discriminate].
    now rewrite (lookup_app_found _ _ _ _ Hv).
  - intros i Hi. assert (Hcase : i = 1 \/ i = 2 \/ i = 3) by lia.
    destruct Hcase as [-> | [-> | ->]]; reflexivity.
Defined.

Context `{Host}.

(** X8. A directory without repeated names gives an image list without
    repeated names (so that names and positions correspond, as X4
    needs), and never more images than entries. *)
Theorem list_images_NoDup (flt : option (gset string)) (d : directory) :
  NoDup (listdir d) ->
  NoDup (list_images flt d)
  /\ length (list_images flt d) <= length d.
Proof.
  intros Hnd. unfold list_images. split.
  - rewrite sort_by_perm.
    apply NoDup_ListNoDup, List.NoDup_filter, NoDup_ListNoDup, Hnd.
  - rewrite sort_by_length.
    etransitivity; [apply List.filter_length_le |].
    unfold listdir. now rewrite length_fmap.
Qed.

End AllocatorExtras.

Lemma list_images_NoDup_witness :
  NoDup (@Bounce.list_images ascii_host None six_images).
Proof.
  apply (@list_images_NoDup ascii_host None six_images).
  repeat (apply NoDup_cons; split;
          [rewrite !list_elem_of_In; simpl; intuition discriminate |]).
  apply NoDup_nil. trivial.
Defined.

(** * Further properties of the encoder driver *)

Section ManifestExtras.
Import Cli.
Context `{Host} `{Disk}.



Lemma quote_escaped (x : string) :
  "'\''" +:+ x = String "'" (String "\" (String "'" (String "'" x))).
Proof. reflexivity. Qed.

Lemma escape_cons (c : ascii) (s : string) :
  _escape_single_quotes (String c s)
  = if Ascii.eqb c "'"
    then String "'" (String "\" (String "'" (String "'"
                                               (_escape_single_quotes s))))
    else String c (_escape_single_quotes s).
Proof.
  unfold _escape_single_quotes. simpl.
  destruct (Ascii.eqb c "'"); [apply quote_escaped | reflexivity].
Qed.

(** X10. Escaping loses nothing: two paths with the same escaped form
    are the same path; a path without a single quote is its own escaped
    form; and the escaped form is longer by three characters per quote. *)
Theorem escape_faithful :
  (forall a b, _escape_single_quotes a = _escape_single_quotes b <-> a = b)
  /\ (forall s, ~ In "'"%char (list_ascii_of_string s) ->
        _escape_single_quotes s = s)
  /\ (forall s, String.length (_escape_single_quotes s)
        = String.length s
          + 3 * length (List.filter (Ascii.eqb "'")
                          (list_ascii_of_string s))).
Proof.
  split; [| split].
  - intros a b. split; [| now intros ->].
    revert b. induction a as [|c a IH]; intros [|c' b];
      rewrite ?escape_cons.
    + reflexivity.
    + destruct (Ascii.eqb c' "'"); discriminate.
    + destruct (Ascii.eqb c "'"); discriminate.
    + destruct (Ascii.eqb_spec c "'") as [-> | Hc],
               (Ascii.eqb_spec c' "'") as [-> | Hc'].
      * intros [= Heq]. f_equal. now apply IH.
      * intros [= Heq _]. congruence.
      * intros [= Heq _]. congruence.
      * intros [= -> Heq]. f_equal. now apply IH.
  - induction s as [|c s IH]; intros Hno; [reflexivity |].
    rewrite escape_cons. simpl in Hno.
    destruct (Ascii.eqb_spec c "'") as [-> | _]; [tauto |].
    f_equal. apply IH. tauto.
  - induction s as [|c s IH]; [reflexivity |].
    rewrite escape_cons.
    change (list_ascii_of_string (String c s))
      with (c :: list_ascii_of_string s).
    change (List.filter ?f (c :: ?l))
      with (if f c then c :: List.filter f l else List.filter f l).
    rewrite (Ascii.eqb_sym "'" c).
    destruct (Ascii.eqb c "'"); simpl String.length; simpl length;
      rewrite IH; lia.
Qed.

End ManifestExtras.

Section OptionExtras.
Import Cli.
Context `{Host}.

(** X11. [--lossless] changes nothing unless the codec name starts with
    [libx264] and no [--crf] is given: otherwise the quality, the pixel
    format and the whole command line are those of the same options
    without the flag (so with an explicit [--crf] the pixel format
    defaults to [yuv420p], not [yuv444p]). *)
Theorem lossless_only_for_x264 (args : Namespace)
    (ffmpeg concat_path : string) :
  Py.startswith "libx264" (arg_codec args) = false
  \/ is_Some (arg_crf args) ->
  quality_defaults args = quality_defaults (with_lossless false args)
  /\ command args ffmpeg concat_path
     = command (with_lossless false args) ffmpeg concat_path
  /\ (arg_pix_fmt args = None -> (quality_defaults args).2 = "yuv420p").
Proof.
  intros Hcase.
  assert (Hq : quality_defaults args
               = quality_defaults (with_lossless false args)).
  { unfold quality_defaults. simpl.
    destruct Hcase as [-> | [c ->]]; simpl;
      now rewrite ?andb_false_r. }
  split; [exact Hq |]. split.
  - unfold command. rewrite Hq. reflexivity.
  - intros Hpix. rewrite Hq. unfold quality_defaults. simpl.
    now rewrite Hpix.
Qed.

(** X12. For the codec [prores_ks] the quality, the preset, the pixel
    format and [--lossless] are ignored: the command line has the fixed
    profile 3 and pixel format [yuv422p10le], carries no [-crf] and no
    [-preset] option of its own, and is the same for any two sets of
    options that agree on output, frame rate and size. *)
Theorem prores_ignores_quality (args args' : Namespace)
    (ffmpeg concat_path : string) :
  arg_codec args = "prores_ks" -> arg_codec args' = "prores_ks" ->
  arg_output args' = arg_output args -> arg_fps args' = arg_fps args ->
  arg_size args' = arg_size args ->
  command args ffmpeg concat_path = command args' ffmpeg concat_path
  /\ command args ffmpeg concat_path
     = input_options args ffmpeg concat_path
       ++ ["-c:v"; "prores_ks"; "-profile:v"; "3";
           "-pix_fmt"; "yuv422p10le"; Py.str_path (arg_output args)].
Proof.
  intros Hc Hc' Hout Hfps Hsize.
  assert (Hshape : forall a, arg_codec a = "prores_ks" ->
            command a ffmpeg concat_path
            = input_options a ffmpeg concat_path
              ++ ["-c:v"; "prores_ks"; "-profile:v"; "3";
                  "-pix_fmt"; "yuv422p10le"; Py.str_path (arg_output a)]).
  { intros a Ha. rewrite command_parts. unfold codec_options, tagged.
    rewrite Ha. reflexivity. }
  split; [| now apply Hshape].
  rewrite (Hshape args Hc), (Hshape args' Hc').
  unfold input_options. now rewrite Hout, Hfps, Hsize.
Qed.

(** X13. Of [--size WxH] only the width reaches the encoder: the scale
    filter is [scale=W:-2:flags=lanczos], followed by the rounding to
    even dimensions, and two sizes of one width give one command line. *)
Theorem size_height_ignored (args : Namespace) (w h h' : Z)
    (ffmpeg concat_path : string) :
  command (with_size (Some (w, h)) args) ffmpeg concat_path
  = command (with_size (Some (w, h')) args) ffmpeg concat_path
  /\ exists pre post,
       command (with_size (Some (w, h)) args) ffmpeg concat_path
       = pre ++ ["-vf"; ("scale=" +:+ Py.str_int w +:+ ":-2:flags=lanczos")
                        +:+ "," +:+ "scale=ceil(iw/2)*2:ceil(ih/2)*2"]
             ++ post.
Proof.
  split; [reflexivity |].
  rewrite command_parts. unfold input_options. simpl arg_size.
  exists [ffmpeg; "-y"; "-f"; "concat"; "-safe"; "0"; "-i"; concat_path;
          "-r"; str_float (arg_fps args)].
  eexists. reflexivity.
Qed.

(** X14. Whatever a scan of the folder finds, a recursive scan finds
    too; and what the plain scan finds are direct children of the folder,
    each a regular file of that name. *)
Theorem recursive_finds_more (folder : directory) (exts : list string)
    (p : Py.Path) :
  In p (collect_images folder false exts) ->
  In p (collect_images folder true exts)
  /\ exists nm, p = [nm] /\ In nm (listdir folder)
                /\ isfile folder nm = true.
Proof.
  unfold collect_images. rewrite !sort_by_In, !filter_In.
  intros [Hglob Hok]. simpl in Hglob. unfold glob_star in Hglob.
  apply in_map_iff in Hglob as ([nm v] & <- & Hin). simpl in *.
  split.
  - split; [| exact Hok]. apply in_or_app. left.
    unfold glob_star. apply in_map_iff. now exists (nm, v).
  - exists nm. split; [reflexivity |]. split.
    + unfold listdir. apply list_elem_of_In, list_elem_of_fmap.
      exists (nm, v). split; [reflexivity | now apply list_elem_of_In].
    + apply andb_true_iff in Hok as [Hfile _]. exact Hfile.
Qed.

End OptionExtras.

Lemma lossless_only_for_x264_witness :
  @Cli.quality_defaults ascii_host x265_lossless
  = (Cli.Int 22, "yuv420p").
Proof.
  destruct (@lossless_only_for_x264 ascii_host x265_lossless "ffmpeg"
              "list.txt") as (Hq & _); [left; reflexivity |].
  rewrite Hq. reflexivity.
Defined.

Lemma prores_ignores_quality_witness :
  @Cli.command ascii_host
    (@Cli.Build_Namespace ascii_host ["out.mov"] (16 # 1)%Q
       (Some (3 # 1)%Q) "fast" (Some "yuv444p") None "prores_ks" true)
    "ffmpeg" "list.txt"
  = @Cli.command ascii_host
      (@Cli.Build_Namespace ascii_host ["out.mov"] (16 # 1)%Q None "slow"
         None None "prores_ks" false)
      "ffmpeg" "list.txt".
Proof.
  apply (@prores_ignores_quality ascii_host); reflexivity.
Defined.

Lemma recursive_finds_more_witness :
  In ["a.png"] (@Cli.collect_images ascii_host six_images true
                  Cli.DEFAULT_EXTS).
Proof.
  apply (@recursive_finds_more ascii_host six_images Cli.DEFAULT_EXTS
           ["a.png"]).
  vm_compute. now left.
Defined.

(** * The driver: [main] of cli.py *)

Section DriverRuns.
Import Driver.
Context `{Host} `{Cli.Disk} `{Env}.

(** The nine ways a run of the driver goes. *)
Lemma driver_cases (args : Namespace) (root : directory) :
  (images_of args root = None
   /\ main args root
      = (Return 2,
         [Stderr ("ERROR: Input folder does not exist: "
                  +:+ show_path (arg_input args))]))
  \/ (images_of args root = Some []
      /\ main args root = (Return 3, [Stderr "ERROR: No images found."]))
  \/ (exists imgs msg,
        images_of args root = Some imgs /\ imgs <> []
        /\ find_ffmpeg (arg_ffmpeg args) = inl msg
        /\ main args root = (SystemExit msg, []))
  \/ (exists imgs ffmpeg,
        images_of args root = Some imgs /\ imgs <> []
        /\ find_ffmpeg (arg_ffmpeg args) = inr ffmpeg
        /\ mkdtemp_ok = false
        /\ main args root = (RaisedOSError, []))
  \/ (exists imgs ffmpeg e,
        images_of args root = Some imgs /\ imgs <> []
        /\ find_ffmpeg (arg_ffmpeg args) = inr ffmpeg
        /\ mkdtemp_ok = true
        /\ Cli.build_concat_file imgs (Cli.arg_fps (arg_encode args))
             manifest_path = inl e
        /\ main args root = (Raised e, [MakeTemp tempdir; RemoveTemp tempdir]))
  \/ (exists cmd text,
        staged args root cmd text /\ arg_dry_run args = true
        /\ main args root
           = (Return 0,
              [MakeTemp tempdir; WriteText manifest_path text;
               Stdout (String.concat " " (map quote_arg cmd));
               RemoveTemp tempdir]))
  \/ (exists cmd text found,
        staged args root cmd text /\ arg_dry_run args = false
        /\ run cmd = None
        /\ main args root
           = (RaisedOSError,
              [MakeTemp tempdir; WriteText manifest_path text; Stdout found;
               RemoveTemp tempdir]))
  \/ (exists cmd text found,
        staged args root cmd text /\ arg_dry_run args = false
        /\ run cmd = Some 0%Z
        /\ main args root
           = (Return 0,
              [MakeTemp tempdir; WriteText manifest_path text; Stdout found;
               Run cmd; RemoveTemp tempdir; Stdout "Done."]))
  \/ (exists cmd text found code,
        staged args root cmd text /\ arg_dry_run args = false
        /\ run cmd = Some code /\ code <> 0%Z
        /\ main args root
           = (Return code,
              [MakeTemp tempdir; WriteText manifest_path text; Stdout found;
               Run cmd; Stderr "ffmpeg failed. Command was:";
               Stderr (String.concat " " cmd); RemoveTemp tempdir])).
Proof.
  unfold staged, images_of, main.
  destruct (folder_of root (arg_input args)) as [d|]; simpl;
    [| left; split; reflexivity].
  right.
  match goal with
  | |- context [map ?f (Cli.collect_images ?a ?b ?c)] =>
      destruct (map f (Cli.collect_images a b c)) as [|p imgs]
  end; [left; split; reflexivity |].
  right. destruct (find_ffmpeg (arg_ffmpeg args)) as [msg | ffmpeg] eqn:Hff.
  { left. exists (p :: imgs), msg. repeat split; discriminate || reflexivity. }
  right. destruct mkdtemp_ok eqn:Htd; simpl.
  2: { left. exists (p :: imgs), ffmpeg.
       repeat split; discriminate || reflexivity. }
  right. fold manifest_path.
  destruct (Cli.build_concat_file (p :: imgs) _ _) as [e | text] eqn:Htext.
  { left. exists (p :: imgs), ffmpeg, e.
    repeat split; first [discriminate | assumption | reflexivity]. }
  right.
  assert (Hst : exists imgs0 ffmpeg0,
            Some (p :: imgs) = Some imgs0 /\ imgs0 <> []
            /\ inr ffmpeg = @inr string string ffmpeg0
            /\ true = true
            /\ Cli.build_concat_file imgs0 (Cli.arg_fps (arg_encode args))
                 manifest_path
               = inr text
            /\ Cli.command (arg_encode args) ffmpeg manifest_path
               = Cli.command (arg_encode args) ffmpeg0 manifest_path).
  { exists (p :: imgs), ffmpeg.
    repeat split; discriminate || assumption || reflexivity. }
  destruct (arg_dry_run args).
  { left. eexists _, text. split; [exact Hst |]. split; reflexivity. }
  right.
  destruct (run (Cli.command (arg_encode args) ffmpeg manifest_path))
    as [code|] eqn:Hcode.
  2: { left. eexists _, text, _. split; [exact Hst |].
       split; [reflexivity |]. split; [exact Hcode | reflexivity]. }
  right. destruct (Z.eqb_spec code 0) as [-> | Hnz].
  - left. eexists _, text, _. split; [exact Hst |].
    split; [reflexivity |]. split; [exact Hcode | reflexivity].
  - right. eexists _, text, _, code. split; [exact Hst |].
    split; [reflexivity |]. split; [exact Hcode |].
    split; [exact Hnz | reflexivity].
Qed.


End DriverRuns.

Section DriverExtras.
Import Driver.
Context `{Host} `{Cli.Disk} `{Env}.

Ltac driver_runs args root :=
  destruct (driver_cases args root)
    as [[Hi Hrun] | [[Hi Hrun] | [(imgs & msg & Hi & Hne & Hff & Hrun)
       | [(imgs & ff & Hi & Hne & Hff & Htd & Hrun)
         | [(imgs & ff & e & Hi & Hne & Hff & Htd & Hb & Hrun)
           | [(cmd' & text & Hst & Hdry & Hrun)
             | [(cmd' & text & found & Hst & Hdry & Hz & Hrun)
               | [(cmd' & text & found & Hst & Hdry & Hz & Hrun)
                 | (cmd' & text & found & code & Hst & Hdry & Hz & Hnz
                    & Hrun)]]]]]]]];
  rewrite Hrun; simpl.



(** X17. The temporary directory never outlives the run: either the run
    only prints (an early exit), or what it does is bracketed by the
    creation and the removal of the temporary directory, the only file
    written is the manifest inside it, and after the removal the run
    only prints. *)
Theorem temp_always_removed (args : Namespace) (root : directory) :
  Forall (fun ev => is_print ev = true) (main args root).2
  \/ exists inside after,
       (main args root).2
       = MakeTemp tempdir :: inside ++ RemoveTemp tempdir :: after
       /\ Forall (fun ev => is_print ev = true) after
       /\ Forall (fun ev =>
                   match ev with
                   | WriteText path _ => path = manifest_path
                   | MakeTemp _ | RemoveTemp _ => False
                   | _ => True
                   end) inside.
Proof.
  driver_runs args root.
  - left. repeat constructor.
  - left. repeat constructor.
  - left. constructor.
  - left. constructor.
  - right. exists [], []. repeat constructor.
  - right. exists [WriteText manifest_path text;
                   Stdout (String.concat " " (map quote_arg cmd'))], [].
    repeat constructor.
  - right. exists [WriteText manifest_path text; Stdout found], [].
    repeat constructor.
  - right. exists [WriteText manifest_path text; Stdout found; Run cmd'],
      [Stdout "Done."]. repeat constructor.
  - right. exists [WriteText manifest_path text; Stdout found; Run cmd';
                   Stderr "ffmpeg failed. Command was:";
                   Stderr (String.concat " " cmd')], [].
    repeat constructor.
Qed.

(** X18. [find_ffmpeg] returns a non-empty path or fails: an explicit
    non-empty path is returned as it is, without looking at the search
    path; an absent or empty one falls back to the search path; and the
    failure is exactly the case where neither gives a non-empty path. *)
Theorem find_ffmpeg_nonempty (explicit : option string) :
  (forall p, find_ffmpeg explicit = inr p ->
     p <> EmptyString
     /\ (explicit = Some p
         \/ (given explicit = false /\ which_ffmpeg = Some p)))
  /\ (forall p, p <> EmptyString -> find_ffmpeg (Some p) = inr p)
  /\ ((exists msg, find_ffmpeg explicit = inl msg) <->
      given explicit = false /\ given which_ffmpeg = false).
Proof.
  unfold find_ffmpeg. split; [| split].
  - intros p. destruct explicit as [e|]; simpl.
    + destruct (String.eqb_spec e "") as [-> | He]; simpl.
      * destruct which_ffmpeg as [ff|]; simpl; [| discriminate].
        destruct (String.eqb_spec ff "") as [-> | Hf]; simpl;
          [discriminate |].
        intros [= <-]. split; [exact Hf | right; now split].
      * intros [= <-]. split; [exact He | now left].
    + destruct which_ffmpeg as [ff|]; simpl; [| discriminate].
      destruct (String.eqb_spec ff "") as [-> | Hf]; simpl; [discriminate |].
      intros [= <-]. split; [exact Hf | right; now split].
  - intros p Hp. simpl. apply String.eqb_neq in Hp. now rewrite Hp.
  - destruct (given explicit); simpl.
    + split; [intros [msg Hm]; discriminate | intros [? _]; discriminate].
    + destruct (given which_ffmpeg); simpl.
      * split; [intros [msg Hm]; discriminate | intros [_ ?]; discriminate].
      * split; [now intros _ | eauto].
Qed.

End DriverExtras.

Section SizeExtras.
Import Driver.

Lemma split_on_nonempty (c : ascii) (s : string) : split_on c s <> [].
Proof.
  destruct s as [|x s]; simpl; [discriminate |].
  destruct (split_on c s), (Ascii.eqb x c); discriminate.
Qed.

Lemma split_on_one (c : ascii) (s b : string) :
  split_on c s = [b] -> s = b /\ ~ In c (list_ascii_of_string b).
Proof.
  revert b. induction s as [|y s IH]; intros b; simpl.
  - intros [= <-]. simpl. tauto.
  - destruct (split_on c s) as [|hd tl] eqn:Hs.
    + now apply split_on_nonempty in Hs.
    + destruct (Ascii.eqb_spec y c) as [-> | Hy]; [discriminate |].
      intros [= <- ->]. destruct (IH hd eq_refl) as [-> Hno].
      split; [reflexivity |]. simpl. intros [? | Hin]; [congruence | tauto].
Qed.

(** A text splits in two at [c] only when it is two [c]-free parts
    around one [c]. *)
Lemma split_on_two (c : ascii) (s a b : string) :
  split_on c s = [a; b] ->
  s = a +:+ String c b
  /\ ~ In c (list_ascii_of_string a) /\ ~ In c (list_ascii_of_string b).
Proof.
  revert a. induction s as [|x s IH]; intros a; simpl; [discriminate |].
  destruct (split_on c s) as [|hd tl] eqn:Hs.
  - now apply split_on_nonempty in Hs.
  - destruct (Ascii.eqb_spec x c) as [-> | Hx].
    + intros [= <- <- ->]. apply split_on_one in Hs as [-> Hno].
      split; [reflexivity |]. split; [simpl; tauto | exact Hno].
    + intros [= <- ->]. destruct (IH hd eq_refl) as (-> & Ha & Hb).
      split; [reflexivity |]. split; [| exact Hb].
      simpl. intros [? | Hin]; [congruence | tauto].
Qed.

Context `{Host} `{Env}.

(** X19. [parse_size] accepts a text exactly when, in lower case, it is
    two [x]-free parts around a single [x] and both parts are integers;
    its result is the pair of these integers, so [X] separates as well
    as [x], and a missing or repeated separator is an error. *)
Theorem parse_size_accepts (s : string) (w h : Z) :
  parse_size s = Some (w, h) <->
  exists a b,
    lower s = a +:+ String "x" b
    /\ ~ In "x"%char (list_ascii_of_string a)
    /\ ~ In "x"%char (list_ascii_of_string b)
    /\ int_of a = Some w /\ int_of b = Some h.
Proof.
  unfold parse_size. split.
  - destruct (split_on "x" (lower s)) as [|a [|b [|c l]]] eqn:Hs;
      try discriminate.
    apply split_on_two in Hs as (Hs & Ha & Hb).
    destruct (int_of a) as [w'|] eqn:Hw; [| discriminate].
    destruct (int_of b) as [h'|] eqn:Hh; [| discriminate].
    intros [= <- <-]. exists a, b. auto.
  - intros (a & b & -> & Ha & Hb & Hw & Hh).
    rewrite split_on_sep, split_on_plain by assumption.
    now rewrite Hw, Hh.
Qed.

End SizeExtras.

Lemma parse_size_accepts_witness :
  @Driver.parse_size ascii_host sample_env "1920X1080"
  = Some (1920, 1080)%Z.
Proof.
  apply (@parse_size_accepts ascii_host sample_env).
  exists "1920", "1080". repeat split; try reflexivity;
    simpl; intuition discriminate.
Defined.

(** * The names of the copies *)

Section NameExtras.

Lemma substring_split (n : nat) (s : string) :
  substring 0 n s +:+ substring n (String.length s - n) s = s.
Proof.
  revert n. induction s as [|c s IH]; intros [|n]; simpl; try reflexivity.
  - rewrite str_app_empty_l. f_equal. clear IH.
    induction s as [|d s IHs]; simpl; [reflexivity | now f_equal].
  - rewrite str_app_String. f_equal. apply IH.
Qed.

Lemma rfind_get (c : ascii) (s : string) :
  (0 <= Py.rfind c s)%Z ->
  exists rest, Py.from (Py.rfind c s) s = String c rest.
Proof.
  unfold Py.from. induction s as [|a s IH]; simpl; [lia |].
  destruct (Z.leb_spec 0 (Py.rfind c s)) as [Hr | Hr].
  - intros _. destruct (IH Hr) as [rest Hrest].
    replace (Z.to_nat (Py.rfind c s + 1)) with (S (Z.to_nat (Py.rfind c s)))
      by lia.
    simpl. eauto.
  - destruct (Ascii.eqb_spec a c) as [-> | _]; [| lia].
    intros _. simpl. eauto.
Qed.

Lemma zfill_length (w : nat) (s : string) :
  w <= String.length (Py.zfill w s).
Proof.
  unfold Py.zfill. rewrite str_length_app.
  assert (Hz : forall n, String.length (String.concat "" (replicate n "0"))
                         = n).
  { induction n as [|n IHn]; [reflexivity |].
    change (replicate (S n) "0") with ("0" :: replicate n "0").
    rewrite concat_empty_cons, str_length_app, IHn. reflexivity. }
  rewrite Hz. lia.
Qed.

(** X20. The name of a copy is the end frame's name with [_NNN]
    inserted in front of its extension: stem and extension of the end
    frame put together give its name back, the extension is empty or
    starts with a dot, and the number is written with at least three
    digits and reads back as the number of the slot. *)
Theorem copy_name_shape (end_file : string) (k : nat) :
  let end_stem := (Py.splitext end_file).1 in
  let end_ext := (Py.splitext end_file).2 in
  end_stem +:+ end_ext = end_file
  /\ (end_ext = EmptyString \/ exists e, end_ext = String "." e)
  /\ Bounce.candidate end_stem end_ext k
     = end_stem +:+ "_" +:+ Py.format_03d k +:+ end_ext
  /\ 3 <= String.length (Py.format_03d k)
  /\ Nat.of_uint <$> NilEmpty.uint_of_string (Py.format_03d k) = Some k.
Proof.
  cbv zeta. unfold Py.splitext.
  destruct (_ && _) eqn:Hsplit; simpl.
  - split; [apply substring_split |]. split.
    + right. apply rfind_get.
      apply andb_true_iff in Hsplit as [Hlt%Z.ltb_lt _].
      assert (-1 <= Py.rfind "/" end_file)%Z; [| lia].
      clear. induction end_file as [|a s IH]; simpl; [lia |].
      destruct (Z.leb_spec 0 (Py.rfind "/" s)); [lia |].
      destruct (Ascii.eqb a "/"); lia.
    + split; [reflexivity |]. split; [apply zfill_length |].
      apply format_03d_read.
  - split; [apply str_app_empty_r |]. split; [now left |].
    split; [reflexivity |]. split; [apply zfill_length |].
    apply format_03d_read.
Qed.

End NameExtras.
